(** * ConvoNerd: the Streamlit script [app.py] as a state-passing program

    Streamlit runs the script from top to bottom on every user interaction.
    One run reads the widgets, reads and writes [st.session_state], the
    objects reachable from it and the directory [uploaded_files], and writes
    to the page.  A run that raises stops there; what it changed before
    stays.

    The PDF loader, the text splitter, the embedding model, the FAISS index
    and the language model are capabilities of an environment [Env]: they
    return or raise, and nothing more is assumed of them.  What the chain
    and its memory do when called (langchain's [Chain.__call__] with
    [prep_inputs] and [prep_outputs], [ConversationalRetrievalChain._call],
    [ConversationBufferMemory]) is written out in the section
    [ChainObjects].

    The chat history lives in two places.  The conversation object owns a
    memory, a list object on the heap, which the chain reads before and
    extends after every answer.  The session variable [chat_history] is
    bound, after every answer, to that same list object, for rendering. *)

From stdpp Require Import gmap strings list pretty.

Open Scope string_scope.
Open Scope list_scope.

(** ** Python values of the script *)

(** [None] or an object. *)
Inductive PyOpt (A : Type) : Type :=
  | PyNone
  | PyObj (a : A).
Arguments PyNone {A}.
Arguments PyObj {A} a.

(** The two message classes a [ConversationBufferMemory] stores. *)
Inductive Message : Type :=
  | HumanMessage (content : string)
  | AIMessage (content : string).

Definition content (m : Message) : string :=
  match m with HumanMessage c | AIMessage c => c end.

Definition is_human (m : Message) : bool :=
  match m with HumanMessage _ => true | AIMessage _ => false end.

Definition is_ai (m : Message) : bool :=
  match m with HumanMessage _ => false | AIMessage _ => true end.

(** A langchain [Document]: text and where it came from. *)
Record Document : Type := mkDocument {
  page_content : string;
  doc_source : string;
  doc_page : nat
}.

(** What [st.file_uploader] hands over for one file. *)
Record UploadedFile : Type := mkUploadedFile {
  uf_name : string;
  uf_getvalue : list Byte.byte
}.

Inductive Exn : Type := Exception (msg : string).

Inductive Outcome (A : Type) : Type :=
  | Returned (a : A)
  | Raised (e : Exn).
Arguments Returned {A} a.
Arguments Raised {A} e.

(** ** Configuration objects built by the script *)

Record EmbeddingsConfig : Type := mkEmbeddings {
  emb_model_name : string;
  emb_device : string;
  normalize_embeddings : bool
}.

(** The result of [FAISS.from_documents]: the chunks in insertion order and
    the embedding model used for them and for the queries. *)
Record VectorStore : Type := mkVectorStore {
  vs_chunks : list Document;
  vs_embeddings : EmbeddingsConfig
}.

(** The text generation pipeline; [top_p] and [repetition_penalty] are kept
    in hundredths. *)
Record PipelineConfig : Type := mkPipeline {
  pl_model_name : string;
  pl_task : string;
  pl_device : string;
  pl_max_new_tokens : nat;
  pl_temperature : nat;
  pl_top_p_hundredths : nat;
  pl_repetition_penalty_hundredths : nat
}.

(** Address of a message list on the heap. *)
Definition loc := nat.

(** A prompt template: literal text and named holes. *)
Inductive Piece : Type :=
  | Lit (s : string)
  | Hole (name : string).

(** The [ConversationalRetrievalChain] object. *)
Record Chain : Type := mkChain {
  chain_llm : PipelineConfig;
  chain_vectorstore : VectorStore;
  chain_k : nat;
  chain_memory : loc;
  chain_type : string;
  condense_question_prompt : list Piece
}.

(** ** The state a run works on *)

(** [st.session_state]: a key is absent ([None]) or bound to a value. *)
Record SessionState : Type := mkSession {
  conversation : option (PyOpt Chain);
  chat_history : option (PyOpt loc)
}.

(** [uploaded_files] is [None] while the directory does not exist. *)
Record World : Type := mkWorld {
  session_state : SessionState;
  heap : list (list Message);
  uploaded_files : option (gmap string (list Byte.byte))
}.

(** What a run writes to the page and to standard output. *)
Inductive Event : Type :=
  | StWrite (html : string)
  | StHeader (s : string)
  | StSubheader (s : string)
  | StSuccess (s : string)
  | StWarning (s : string)
  | StError (s : string)
  | StWriteChunks (prefix : string) (chunks : list Document)
  | PrintResponse (question : string) (history : list Message) (answer : string)
  | PyPrint (s : string).

(** ** The monad of a run: state, output and exceptions *)

Definition M (A : Type) : Type := World → Outcome A * World * list Event.

Definition ret {A} (a : A) : M A := λ w, (Returned a, w, []).

Definition bind {A B} (m : M A) (f : A → M B) : M B :=
  λ w,
    match m w with
    | (Returned a, w1, out1) =>
        match f a w1 with
        | (r, w2, out2) => (r, w2, out1 ++ out2)
        end
    | (Raised e, w1, out1) => (Raised e, w1, out1)
    end.

#[global] Instance M_ret : MRet M := @ret.
#[global] Instance M_bind : MBind M := λ A B f m, bind m f.

Definition raise {A} (e : Exn) : M A := λ w, (Raised e, w, []).

Definition emit (ev : Event) : M unit := λ w, (Returned tt, w, [ev]).

Definition get_world : M World := λ w, (Returned w, w, []).

Definition put_world (w : World) : M unit := λ _, (Returned tt, w, []).

(** An absent [else] branch. *)
Definition skip : M unit := ret tt.

(** A call into a library that returns or raises and touches no state. *)
Definition call {A} (r : Exn + A) : M A :=
  match r with
  | inl e => raise e
  | inr a => ret a
  end.

Definition result {A} (r : Outcome A * World * list Event) : Outcome A := r.1.1.
Definition world_after {A} (r : Outcome A * World * list Event) : World := r.1.2.
Definition output {A} (r : Outcome A * World * list Event) : list Event := r.2.

(** [for x in xs: body x] *)
Fixpoint for_each {A} (xs : list A) (body : A → M unit) : M unit :=
  match xs with
  | [] => ret tt
  | x :: xs' => body x;; for_each xs' body
  end.

(** ** Strings *)

Definition newline : string := String (Ascii.ascii_of_nat 10) "".

(** [s.replace(old, new)] for a non-empty [old]: occurrences are replaced
    from the left and do not overlap.  [skip] counts the characters of an
    occurrence still to be dropped. *)
Fixpoint replace_from (old new s : string) (skip : nat) : string :=
  match s with
  | "" => ""
  | String c s' =>
      match skip with
      | S k => replace_from old new s' k
      | 0 =>
          if String.prefix old s
          then new +:+ replace_from old new s' (String.length old - 1)
          else String c (replace_from old new s' 0)
      end
  end.

Definition str_replace (s old new : string) : string := replace_from old new s 0.

(** [template.format(args)]: every hole is filled from [args]; a hole
    without an argument is a [KeyError]. *)
Fixpoint format_pieces (ps : list Piece) (args : list (string * string)) : Exn + string :=
  match ps with
  | [] => inr ""
  | Lit s :: ps' =>
      match format_pieces ps' args with
      | inr rest => inr (s +:+ rest)
      | inl e => inl e
      end
  | Hole x :: ps' =>
      match (list_to_map args : gmap string string) !! x with
      | Some v =>
          match format_pieces ps' args with
          | inr rest => inr (v +:+ rest)
          | inl e => inl e
          end
      | None => inl (Exception ("KeyError: " +:+ x))
      end
  end.

(** The template text a list of pieces stands for. *)
Fixpoint template_text (ps : list Piece) : string :=
  match ps with
  | [] => ""
  | Lit s :: ps' => s +:+ template_text ps'
  | Hole x :: ps' => "{" +:+ x +:+ "}" +:+ template_text ps'
  end.

(** Python truthiness. *)
Definition truthy_str (s : string) : bool :=
  match s with "" => false | _ => true end.

Definition truthy_list {A} (l : list A) : bool :=
  match l with [] => false | _ => true end.

Definition truthy_obj {A} (o : PyOpt A) : bool :=
  match o with PyNone => false | PyObj _ => true end.

(** ** The environment: libraries, models and the operating system *)

Record Env : Type := mkEnv {
  (** [html_templates.py] *)
  css : string;
  bot_template : string;
  user_template : string;
  (** [torch.cuda.is_available()] *)
  cuda_is_available : bool;
  (** [open(path, 'wb')] and the write, by file name *)
  open_wb : string → list Byte.byte → Exn + unit;
  (** [PyPDFDirectoryLoader("uploaded_files").load()] on the directory *)
  loader_load : option (gmap string (list Byte.byte)) → Exn + list Document;
  (** [RecursiveCharacterTextSplitter(chunk_size, chunk_overlap, len).split_documents] *)
  split_documents : nat → nat → list Document → Exn + list Document;
  (** [HuggingFaceBgeEmbeddings(...)]: loads the embedding model *)
  load_embeddings : EmbeddingsConfig → Exn + unit;
  (** [FAISS.from_documents]: embeds the chunks and builds the index *)
  faiss_from_documents : list Document → EmbeddingsConfig → Exn + unit;
  (** [retriever.get_relevant_documents(query)] with [search_kwargs] k *)
  similarity_search : VectorStore → string → nat → Exn + list Document;
  (** [AutoGPTQForCausalLM.from_quantized], [AutoTokenizer.from_pretrained]
      and [pipeline(...)] *)
  from_quantized : string → string → Exn + unit;
  tokenizer_from_pretrained : string → Exn + unit;
  pipeline_init : PipelineConfig → Exn + unit;
  (** one call of the text generation pipeline on a prompt *)
  llm_generate : PipelineConfig → string → Exn + string;
  (** the prompt of the "stuff" documents chain for documents and question *)
  stuff_prompt : list Document → string → string
}.

(** ** Module level of [app.py] *)

Definition DEVICE (E : Env) : string :=
  if cuda_is_available E then "cuda:0" else "cpu".

Definition language_instruction : string := "Answer the question in German language.".

Definition sentinel : string := "I am sorry".

(** [prompt = PromptTemplate.from_template(template=custom_template)] *)
Definition prompt : list Piece :=
  [ Lit ("Given the following conversation and a follow up question, rephrase the follow up question to be "
         +:+ newline +:+
         "a standalone question. At the end of standalone question add this '"
         +:+ language_instruction +:+ "' If you do "
         +:+ newline +:+
         "not know the answer reply with '" +:+ sentinel +:+ "'. Chat History: ");
    Hole "chat_history";
    Lit " Follow Up Input: ";
    Hole "question";
    Lit (" Standalone " +:+ newline +:+ "question:") ].

Definition custom_template : string := template_text prompt.

(** ** State accessors *)

Definition set_conversation (c : PyOpt Chain) : M unit :=
  w ← get_world;
  put_world
    {| session_state := {| conversation := Some c;
                           chat_history := chat_history (session_state w) |};
       heap := heap w;
       uploaded_files := uploaded_files w |}.

Definition set_chat_history (h : PyOpt loc) : M unit :=
  w ← get_world;
  put_world
    {| session_state := {| conversation := conversation (session_state w);
                           chat_history := Some h |};
       heap := heap w;
       uploaded_files := uploaded_files w |}.

Definition set_uploaded_files (d : option (gmap string (list Byte.byte))) : M unit :=
  w ← get_world;
  put_world
    {| session_state := session_state w;
       heap := heap w;
       uploaded_files := d |}.

(** [st.session_state.conversation] and [st.session_state.chat_history]:
    reading a key that is not bound is an [AttributeError]. *)
Definition session_conversation : M (PyOpt Chain) :=
  w ← get_world;
  match conversation (session_state w) with
  | Some c => mret c
  | None => raise (Exception "AttributeError: st.session_state has no attribute conversation")
  end.

Definition session_chat_history : M (PyOpt loc) :=
  w ← get_world;
  match chat_history (session_state w) with
  | Some h => mret h
  | None => raise (Exception "AttributeError: st.session_state has no attribute chat_history")
  end.

(** [a and b]: [b] is evaluated only when [a] is truthy. *)
Definition and_then (a : bool) (b : M bool) : M bool :=
  if a then b else mret false.

(** A new empty list object; its address is returned. *)
Definition alloc_messages : M loc :=
  w ← get_world;
  put_world
    {| session_state := session_state w;
       heap := heap w ++ [[]];
       uploaded_files := uploaded_files w |};;
  mret (length (heap w)).

Definition read_messages (l : loc) : M (list Message) :=
  w ← get_world;
  match heap w !! l with
  | Some msgs => mret msgs
  | None => raise (Exception "no such object")
  end.

(** [list.append] of each of [new] on the list object at [l]. *)
Definition append_messages (l : loc) (new : list Message) : M unit :=
  w ← get_world;
  match heap w !! l with
  | Some msgs =>
      put_world
        {| session_state := session_state w;
           heap := <[l := msgs ++ new]> (heap w);
           uploaded_files := uploaded_files w |}
  | None => raise (Exception "no such object")
  end.

(** ** The directory [uploaded_files] *)

Definition os_path_isdir : M bool :=
  w ← get_world;
  mret (bool_decide (is_Some (uploaded_files w))).

Definition os_listdir : M (list string) :=
  w ← get_world;
  match uploaded_files w with
  | Some d => mret (map_to_list d).*1
  | None => raise (Exception "FileNotFoundError: uploaded_files")
  end.

Definition os_remove (f : string) : M unit :=
  w ← get_world;
  match uploaded_files w with
  | Some d =>
      match d !! f with
      | Some _ => set_uploaded_files (Some (delete f d))
      | None => raise (Exception ("FileNotFoundError: " +:+ f))
      end
  | None => raise (Exception ("FileNotFoundError: " +:+ f))
  end.

Definition os_mkdir : M unit :=
  w ← get_world;
  match uploaded_files w with
  | Some _ => raise (Exception "FileExistsError: uploaded_files")
  | None => set_uploaded_files (Some ∅)
  end.

(** [with open(os.path.join('uploaded_files', name), 'wb') as f: f.write(data)].
    [open_wb] says whether the operating system accepts the open and the
    write; when it refuses, the directory is left as it was.  The name is a
    base name, as the uploader gives it. *)
Definition write_file (E : Env) (name : string) (data : list Byte.byte) : M unit :=
  w ← get_world;
  match uploaded_files w with
  | Some d =>
      match open_wb E name data with
      | inr _ => set_uploaded_files (Some (<[name := data]> d))
      | inl e => raise e
      end
  | None => raise (Exception "FileNotFoundError: uploaded_files")
  end.

(** ** The chain and memory objects

    What the objects built in [get_conversation_chain] do when the chain is
    called: a [ConversationalRetrievalChain] with a
    [ConversationBufferMemory(memory_key='chat_history', return_messages=True)].
    A call loads the memory's message list into the input [chat_history]
    ([prep_inputs]), runs the chain's own step ([_call]) and, when that
    returned, saves the question and the answer to the memory
    ([prep_outputs]); the answer dictionary holds the inputs and the answer. *)

Section ChainObjects.
Context (E : Env).

(** The answer dictionary of a chain call.  [resp_chat_history] is the
    memory's own list object, not a copy. *)
Record Response : Type := mkResponse {
  resp_question : string;
  resp_chat_history : loc;
  resp_answer : string
}.

Definition role_prefix (m : Message) : string :=
  match m with
  | HumanMessage _ => "Human: "
  | AIMessage _ => "Assistant: "
  end.

(** The history as one string, a line per message; empty for no message. *)
Definition get_chat_history (msgs : list Message) : string :=
  foldl (λ buffer m, buffer +:+ newline +:+ role_prefix m +:+ content m) "" msgs.

(** The question generator: with no history the question is passed on as
    it is, otherwise the model rewrites it from the condense prompt. *)
Definition condense_question (c : Chain) (msgs : list Message) (question : string)
  : Exn + string :=
  let chat_history_str := get_chat_history msgs in
  if truthy_str chat_history_str then
    match format_pieces (condense_question_prompt c)
            [("question", question); ("chat_history", chat_history_str)] with
    | inr text => llm_generate E (chain_llm c) text
    | inl e => inl e
    end
  else inr question.

(** The chain's own step on the loaded history: condense the question,
    retrieve [chain_k] documents for it, generate the answer from them. *)
Definition chain_step (c : Chain) (msgs : list Message) (question : string)
  : Exn + string :=
  match condense_question c msgs question with
  | inr new_question =>
      match similarity_search E (chain_vectorstore c) new_question (chain_k c) with
      | inr docs => llm_generate E (chain_llm c) (stuff_prompt E docs new_question)
      | inl e => inl e
      end
  | inl e => inl e
  end.

(** [chain({'question': q, 'chat_history': h})].  The memory's variable
    [chat_history] replaces the caller's [h]; the turn is saved to the
    memory after the answer is there. *)
Definition chain_call (c : Chain) (question : string) (h : PyOpt loc)
  : M Response :=
  msgs ← read_messages (chain_memory c);
  answer ← call (chain_step c msgs question);
  append_messages (chain_memory c) [HumanMessage question; AIMessage answer];;
  mret {| resp_question := question;
          resp_chat_history := chain_memory c;
          resp_answer := answer |}.

End ChainObjects.

(** ** The functions of [app.py] *)

(** The widgets of one run. *)
Record Widgets : Type := mkWidgets {
  text_input : string;
  file_uploader : list UploadedFile;
  button_Process : bool
}.

Section App.
Context (E : Env).

(** Lines 36 to 38, under the comment "delete old files". *)
Definition delete_old_files : M unit :=
  isdir ← os_path_isdir;
  if (isdir : bool) then
    files ← os_listdir;
    for_each files os_remove
  else skip.

(** Lines 40 to 44: the body of the loop over the uploaded files. *)
Definition save_upload (uploaded_file : UploadedFile) : M unit :=
  isdir ← os_path_isdir;
  (if negb (isdir : bool) then os_mkdir else skip);;
  write_file E (uf_name uploaded_file) (uf_getvalue uploaded_file);;
  emit (StSuccess "File has been uploaded and saved to the session.").

Definition get_pdf_text (pdf_docs : list UploadedFile) : M (list Document) :=
  delete_old_files;;
  for_each pdf_docs save_upload;;
  w ← get_world;
  docs ← call (loader_load E (uploaded_files w));
  emit (StWrite ("Loaded " +:+ pretty (length docs) +:+ " PDFs"));;
  emit (StWrite "Type: <class 'list'>");;
  mret docs.

Definition get_text_chunks (text : list Document) : M (list Document) :=
  chunks ← call (split_documents E 1000 200 text);
  mret chunks.

Definition get_vectorstore (text_chunks : list Document) : M VectorStore :=
  let model_name := "BAAI/bge-small-en" in
  let embeddings :=
    {| emb_model_name := model_name;
       emb_device := DEVICE E;
       normalize_embeddings := true |} in
  call (load_embeddings E embeddings);;
  emit (StWriteChunks "Loaded embeddings model: " text_chunks);;
  call (faiss_from_documents E text_chunks embeddings);;
  mret {| vs_chunks := text_chunks; vs_embeddings := embeddings |}.

Definition get_conversation_chain (vectorstore : VectorStore) : M Chain :=
  let model_name := "TheBloke/Llama-2-13B-chat-GPTQ" in
  call (from_quantized E model_name (DEVICE E));;
  call (tokenizer_from_pretrained E model_name);;
  let llm :=
    {| pl_model_name := model_name;
       pl_task := "text2text-generation";
       pl_device := DEVICE E;
       pl_max_new_tokens := 1024;
       pl_temperature := 0;
       pl_top_p_hundredths := 95;
       pl_repetition_penalty_hundredths := 115 |} in
  call (pipeline_init E llm);;
  memory ← alloc_messages;
  mret {| chain_llm := llm;
          chain_vectorstore := vectorstore;
          chain_k := 2;
          chain_memory := memory;
          chain_type := "stuff";
          condense_question_prompt := prompt |}.

(** One bubble of the page for the message at index [i]. *)
Definition render_message (i : nat) (message : Message) : M unit :=
  if (i mod 2 =? 0)%nat then
    emit (StWrite (str_replace (user_template E) "{{MSG}}" (content message)))
  else
    emit (StWrite (str_replace (bot_template E) "{{MSG}}" (content message)));;
    emit (PyPrint (content message)).

Definition handle_userinput (user_question : string) : M unit :=
  conv ← session_conversation;
  h ← session_chat_history;
  match conv with
  | PyObj chain =>
      response ← chain_call E chain user_question h;
      msgs ← read_messages (resp_chat_history response);
      emit (PrintResponse (resp_question response) msgs (resp_answer response));;
      set_chat_history (PyObj (resp_chat_history response));;
      history ← read_messages (resp_chat_history response);
      for_each (imap pair history) (λ im, render_message im.1 im.2)
  | PyNone => raise (Exception "TypeError: 'NoneType' object is not callable")
  end.

(** [if key not in st.session_state: st.session_state.key = None] twice. *)
Definition init_session_state : M unit :=
  w ← get_world;
  (match conversation (session_state w) with
   | None => set_conversation PyNone
   | Some _ => skip
   end);;
  w ← get_world;
  match chat_history (session_state w) with
  | None => set_chat_history PyNone
  | Some _ => skip
  end.

Definition please_upload : string :=
  "Please upload your PDFs first and click on 'Process'".

(** Lines 166 to 172: the question box. *)
Definition question_section (user_question : string) : M unit :=
  ready ← and_then (truthy_str user_question)
             (conv ← session_conversation; mret (truthy_obj conv));
  if (ready : bool) then
    handle_userinput user_question
  else
    idle ← and_then (truthy_str user_question)
              (conv ← session_conversation; mret (negb (truthy_obj conv)));
    if (idle : bool) then emit (StError please_upload) else skip.

(** Lines 181 to 192: the block under [st.spinner("Processing")]. *)
Definition processing (pdf_docs : list UploadedFile) : M unit :=
  raw_text ← get_pdf_text pdf_docs;
  text_chunks ← get_text_chunks raw_text;
  vectorstore ← get_vectorstore text_chunks;
  chain ← get_conversation_chain vectorstore;
  set_conversation (PyObj chain).

(** Lines 174 to 195: the sidebar. *)
Definition sidebar_section (pdf_docs : list UploadedFile) (clicked : bool) : M unit :=
  emit (StSubheader "Your documents");;
  if clicked then
    if truthy_list pdf_docs then
      processing pdf_docs
    else
      emit (StWarning please_upload)
  else skip.

(** [load_dotenv()] and [st.set_page_config(...)] touch neither the state
    nor the page content and are left out. *)
Definition main (ui : Widgets) : M unit :=
  emit (StWrite (css E));;
  init_session_state;;
  emit (StHeader "Chat with multiple PDFs :books:");;
  let user_question := text_input ui in
  question_section user_question;;
  sidebar_section (file_uploader ui) (button_Process ui).

(** One run of the script: module level, then [main()]. *)
Definition script (ui : Widgets) : M unit :=
  emit (PyPrint (DEVICE E));;
  main ui.

End App.

(** ** Vocabulary of the properties *)

(** [keeps R m]: whatever the outcome, the world after [m] is related by [R]
    to the world before. *)
Definition keeps {A} (R : relation World) (m : M A) : Prop :=
  ∀ w, R w (world_after (m w)).

(** Session state and heap are the same. *)
Definition same_session : relation World :=
  λ w w', session_state w' = session_state w ∧ heap w' = heap w.

(** No index has been built: the session has no conversation object. *)
Definition no_index (w : World) : Prop :=
  conversation (session_state w) = None ∨
  conversation (session_state w) = Some PyNone.

(** Both keys of the session state are bound. *)
Definition initialised (w : World) : Prop :=
  is_Some (conversation (session_state w)) ∧
  is_Some (chat_history (session_state w)).

(** The chat history the conversation object owns: the messages of its
    memory; empty while there is no conversation. *)
Definition memory_history (w : World) : list Message :=
  match conversation (session_state w) with
  | Some (PyObj c) => default [] (heap w !! chain_memory c)
  | _ => []
  end.

(** The list the session's [chat_history] variable refers to. *)
Definition session_history (w : World) : option (list Message) :=
  match chat_history (session_state w) with
  | Some (PyObj l) => heap w !! l
  | _ => None
  end.

(** Question, answer, question, answer, ... *)
Definition alternates (msgs : list Message) : Prop :=
  length msgs mod 2 = 0 ∧
  ∀ i m, msgs !! i = Some m →
    (i mod 2 = 0 → is_human m = true) ∧
    (i mod 2 ≠ 0 → is_ai m = true).

(** Every list object on the heap alternates. *)
Definition heap_alternates (h : list (list Message)) : Prop :=
  ∀ l msgs, h !! l = Some msgs → alternates msgs.

(** The directory is as before. *)
Definition same_dir : relation World :=
  λ w w', uploaded_files w' = uploaded_files w.

(** Every file of the directory is a file of the batch [docs]. *)
Definition only_batch (docs : list UploadedFile)
    (d : gmap string (list Byte.byte)) : Prop :=
  ∀ name data, d !! name = Some data →
    ∃ uf, uf ∈ docs ∧ uf_name uf = name ∧ uf_getvalue uf = data.

(** The world with the directory replaced. *)
Definition with_uploaded_files (w : World)
    (d : option (gmap string (list Byte.byte))) : World :=
  {| session_state := session_state w;
     heap := heap w;
     uploaded_files := d |}.

(** The claim of atomic ingestion, as the specification has it: a click on
    Process that raises leaves session state, heap and directory as it
    found them. *)
Definition process_is_atomic (E : Env) (pdf_docs : list UploadedFile) (w : World) : Prop :=
  ∀ e, result (sidebar_section E pdf_docs true w) = Raised e →
       world_after (sidebar_section E pdf_docs true w) = w.

(** The worlds a session can be in: it starts with an empty session state
    and heap, whatever the directory holds, and goes on by runs of the
    script, in any environment and with any widget values; a run that
    raises leaves the world it had reached. *)
Inductive reachable : World → Prop :=
  | reachable_start (d : option (gmap string (list Byte.byte))) :
      reachable {| session_state := {| conversation := None; chat_history := None |};
                   heap := [];
                   uploaded_files := d |}
  | reachable_run (E : Env) (ui : Widgets) (w : World) :
      reachable w → reachable (world_after (script E ui w)).

(** What [render_message] writes. *)
Definition bubble (E : Env) (i : nat) (message : Message) : list Event :=
  if (i mod 2 =? 0)%nat then
    [ StWrite (str_replace (user_template E) "{{MSG}}" (content message)) ]
  else
    [ StWrite (str_replace (bot_template E) "{{MSG}}" (content message));
      PyPrint (content message) ].

(** The bubble chosen by the class of the message instead of its index. *)
Definition bubble_by_role (E : Env) (message : Message) : list Event :=
  match message with
  | HumanMessage c => [ StWrite (str_replace (user_template E) "{{MSG}}" c) ]
  | AIMessage c => [ StWrite (str_replace (bot_template E) "{{MSG}}" c); PyPrint c ]
  end.

(** The world with the list at [l] replaced. *)
Definition with_messages (w : World) (l : loc) (msgs : list Message) : World :=
  {| session_state := session_state w;
     heap := <[l := msgs]> (heap w);
     uploaded_files := uploaded_files w |}.

(** The world with [chat_history] bound to the list at [l]. *)
Definition with_chat_history (w : World) (l : loc) : World :=
  {| session_state := {| conversation := conversation (session_state w);
                         chat_history := Some (PyObj l) |};
     heap := heap w;
     uploaded_files := uploaded_files w |}.

(** The chain [get_conversation_chain] returns for a vector store, with its
    memory at [memory]. *)
Definition built_chain (E : Env) (vectorstore : VectorStore) (memory : loc) : Chain :=
  {| chain_llm :=
       {| pl_model_name := "TheBloke/Llama-2-13B-chat-GPTQ";
          pl_task := "text2text-generation";
          pl_device := DEVICE E;
          pl_max_new_tokens := 1024;
          pl_temperature := 0;
          pl_top_p_hundredths := 95;
          pl_repetition_penalty_hundredths := 115 |};
     chain_vectorstore := vectorstore;
     chain_k := 2;
     chain_memory := memory;
     chain_type := "stuff";
     condense_question_prompt := prompt |}.

(** The claim about the condenser, as the specification has it: with an
    empty history the standalone question is the input question followed by
    the language instruction (after some separator). *)
Definition condenser_appends_instruction (E : Env) (c : Chain) (q : string) : Prop :=
  ∃ sep, condense_question E c [] q = inr (q +:+ sep +:+ language_instruction).

(** The text the model gets for a follow-up question: [custom_template]
    with its two holes filled. *)
Definition condense_prompt_text (chat_history_str question : string) : string :=
  "Given the following conversation and a follow up question, rephrase the follow up question to be "
  +:+ newline +:+
  "a standalone question. At the end of standalone question add this '"
  +:+ language_instruction +:+ "' If you do "
  +:+ newline +:+
  "not know the answer reply with '" +:+ sentinel +:+ "'. Chat History: "
  +:+ chat_history_str +:+ " Follow Up Input: " +:+ question
  +:+ " Standalone " +:+ newline +:+ "question:".

(** ** Concrete environments and worlds *)

(** Every library call succeeds; the model answers "Nein." *)
Definition demo_env : Env :=
  {| css := "<style></style>";
     bot_template := "<bot>{{MSG}}</bot>";
     user_template := "<user>{{MSG}}</user>";
     cuda_is_available := false;
     open_wb := λ _ _, inr tt;
     loader_load := λ d,
       match d with
       | Some m => inr ((λ kv, mkDocument "text" kv.1 0) <$> map_to_list m)
       | None => inl (Exception "FileNotFoundError: uploaded_files")
       end;
     split_documents := λ _ _ docs, inr docs;
     load_embeddings := λ _, inr tt;
     faiss_from_documents := λ _ _, inr tt;
     similarity_search := λ vs _ k, inr (take k (vs_chunks vs));
     from_quantized := λ _ _, inr tt;
     tokenizer_from_pretrained := λ _, inr tt;
     pipeline_init := λ _, inr tt;
     llm_generate := λ _ _, inr "Nein.";
     stuff_prompt := λ _ q, q |}.

(** As [demo_env], but the PDF loader raises. *)
Definition broken_loader_env : Env :=
  {| css := css demo_env;
     bot_template := bot_template demo_env;
     user_template := user_template demo_env;
     cuda_is_available := cuda_is_available demo_env;
     open_wb := open_wb demo_env;
     loader_load := λ _, inl (Exception "PdfReadError");
     split_documents := split_documents demo_env;
     load_embeddings := load_embeddings demo_env;
     faiss_from_documents := faiss_from_documents demo_env;
     similarity_search := similarity_search demo_env;
     from_quantized := from_quantized demo_env;
     tokenizer_from_pretrained := tokenizer_from_pretrained demo_env;
     pipeline_init := pipeline_init demo_env;
     llm_generate := llm_generate demo_env;
     stuff_prompt := stuff_prompt demo_env |}.

(** A fresh session, no directory yet. *)
Definition fresh_world : World :=
  {| session_state := {| conversation := None; chat_history := None |};
     heap := [];
     uploaded_files := None |}.

Definition a_pdf : UploadedFile := {| uf_name := "a.pdf"; uf_getvalue := [] |}.
Definition b_pdf : UploadedFile := {| uf_name := "b.pdf"; uf_getvalue := [] |}.

(** The user types [q] and presses enter. *)
Definition ask (q : string) : Widgets :=
  {| text_input := q; file_uploader := []; button_Process := false |}.

(** The user has uploaded [docs] and clicks Process; the box holds [q]. *)
Definition click_Process (q : string) (docs : list UploadedFile) : Widgets :=
  {| text_input := q; file_uploader := docs; button_Process := true |}.

(** The chain a Process run builds in [demo_env] from [a_pdf] when the
    heap is empty. *)
Definition demo_chain : Chain :=
  {| chain_llm :=
       {| pl_model_name := "TheBloke/Llama-2-13B-chat-GPTQ";
          pl_task := "text2text-generation";
          pl_device := "cpu";
          pl_max_new_tokens := 1024;
          pl_temperature := 0;
          pl_top_p_hundredths := 95;
          pl_repetition_penalty_hundredths := 115 |};
     chain_vectorstore :=
       {| vs_chunks := [ {| page_content := "text"; doc_source := "a.pdf"; doc_page := 0 |} ];
          vs_embeddings :=
            {| emb_model_name := "BAAI/bge-small-en";
               emb_device := "cpu";
               normalize_embeddings := true |} |};
     chain_k := 2;
     chain_memory := 0;
     chain_type := "stuff";
     condense_question_prompt := prompt |}.

(** The session after that Process run. *)
Definition ready_world : World :=
  {| session_state := {| conversation := Some (PyObj demo_chain);
                         chat_history := Some PyNone |};
     heap := [[]];
     uploaded_files := Some {[ "a.pdf" := [] ]} |}.

(** The worlds after a list of runs in [demo_env]. *)
Definition after_runs (uis : list Widgets) (w : World) : World :=
  foldl (λ w ui, world_after (script demo_env ui w)) w uis.

(** The session after a Process run and one answered question. *)
Definition chatted_world : World :=
  after_runs [click_Process "" [a_pdf]; ask "Hi"] fresh_world.

(** ** [validate_urls]

    [validators.url] is the library's check; only whether its result is
    truthy matters to the loop. *)

Section Urls.
Context (validators_url : string → bool).

(** The loop of [validate_urls] from the point where [valid_urls] holds
    what was appended so far. *)
Fixpoint validate_urls_from (valid_urls urls : list string) : M (list string) :=
  match urls with
  | [] => mret valid_urls
  | url :: urls' =>
      if validators_url url then
        validate_urls_from (valid_urls ++ [url]) urls'
      else
        emit (StWarning ("Invalid URL: " +:+ url));;
        validate_urls_from valid_urls urls'
  end.

Definition validate_urls (urls : list string) : M (list string) :=
  validate_urls_from [] urls.

End Urls.

(** ** Vocabulary of the further properties *)

(** The directory that holds exactly the files of a batch: saved in order,
    a later file replaces an earlier one of the same name. *)
Definition batch_dir (docs : list UploadedFile) : gmap string (list Byte.byte) :=
  foldl (λ d uf, <[uf_name uf := uf_getvalue uf]> d) ∅ docs.

(** The embeddings object [get_vectorstore] builds. *)
Definition bge_embeddings (E : Env) : EmbeddingsConfig :=
  {| emb_model_name := "BAAI/bge-small-en";
     emb_device := DEVICE E;
     normalize_embeddings := true |}.

(** The references of the session state point into the heap, and
    [chat_history] is bound when [conversation] is. *)
Definition well_formed (w : World) : Prop :=
  (∀ c, conversation (session_state w) = Some (PyObj c) →
        chain_memory c < length (heap w)) ∧
  (∀ l, chat_history (session_state w) = Some (PyObj l) → l < length (heap w)) ∧
  (is_Some (conversation (session_state w)) →
   is_Some (chat_history (session_state w))).

(** No library call of the environment raises (the loader, on a directory
    that exists). *)
Definition libraries_return (E : Env) : Prop :=
  (∀ name data, ∃ r, open_wb E name data = inr r) ∧
  (∀ d, ∃ r, loader_load E (Some d) = inr r) ∧
  (∀ size overlap docs, ∃ r, split_documents E size overlap docs = inr r) ∧
  (∀ cfg, ∃ r, load_embeddings E cfg = inr r) ∧
  (∀ chunks cfg, ∃ r, faiss_from_documents E chunks cfg = inr r) ∧
  (∀ vs query k, ∃ r, similarity_search E vs query k = inr r) ∧
  (∀ name device, ∃ r, from_quantized E name device = inr r) ∧
  (∀ name, ∃ r, tokenizer_from_pretrained E name = inr r) ∧
  (∀ cfg, ∃ r, pipeline_init E cfg = inr r) ∧
  (∀ cfg text, ∃ r, llm_generate E cfg text = inr r).

(** A check that accepts the URLs with an [https] scheme. *)
Definition https_only (url : string) : bool := String.prefix "https://" url.

(** What [get_pdf_text] writes when it returns: one success message per
    saved file, then the number of documents the loader returned. *)
Definition get_pdf_text_page (pdf_docs : list UploadedFile) (docs : list Document)
    : list Event :=
  replicate (length pdf_docs)
    (StSuccess "File has been uploaded and saved to the session.")
  ++ [ StWrite ("Loaded " +:+ pretty (length docs) +:+ " PDFs");
       StWrite "Type: <class 'list'>" ].


(** A property of the world that holds after if it held before. *)
Definition inv_rel (P : World → Prop) : relation World :=
  λ w w', P w → P w'.

(** The world after a question was answered by the conversation [c]: the
    turn is on its memory and [chat_history] is bound to that list. *)
Definition answered (w : World) (c : Chain) (msgs : list Message)
    (q answer : string) : World :=
  with_chat_history
    (with_messages w (chain_memory c) (msgs ++ [HumanMessage q; AIMessage answer]))
    (chain_memory c).

(** The chain is one [get_conversation_chain] builds: Llama 2 pipeline with
    temperature 0, retrieval of 2 chunks from an index over normalised
    bge-small embeddings, the "stuff" chain and the custom condense prompt. *)
Definition configured_by_app (c : Chain) : Prop :=
  ∃ E chunks,
    c = built_chain E {| vs_chunks := chunks; vs_embeddings := bge_embeddings E |}
          (chain_memory c).

(** The chat history of a list of lists grows: every list is still there,
    possibly longer. *)
Definition heap_extends : relation World :=
  λ w w', ∀ l msgs, heap w !! l = Some msgs →
            ∃ more, heap w' !! l = Some (msgs ++ more).

(** The character [{]. *)
Definition open_brace : Ascii.ascii := Ascii.ascii_of_nat 123.

(** The string has no opening brace, so no placeholder starts in it. *)
Fixpoint brace_free (s : string) : bool :=
  match s with
  | "" => true
  | String c s' => negb (Ascii.eqb c open_brace) && brace_free s'
  end.

(** * Reasoning about runs *)

Lemma bind_run {A B} (m : M A) (f : A → M B) (w : World) :
  (m ≫= f) w =
    match m w with
    | (Returned a, w1, out1) =>
        match f a w1 with
        | (r, w2, out2) => (r, w2, out1 ++ out2)
        end
    | (Raised e, w1, out1) => (Raised e, w1, out1)
    end.
Proof. reflexivity. Qed.

Lemma for_each_nil {A} (body : A → M unit) : for_each [] body = mret tt.
Proof. reflexivity. Qed.

Lemma for_each_cons {A} (x : A) (xs : list A) (body : A → M unit) :
  for_each (x :: xs) body = (body x;; for_each xs body).
Proof. reflexivity. Qed.

#[global] Arguments for_each : simpl never.

(** A bind that goes through its first part continues from there. *)
Lemma bind_returned {A B} (m : M A) (f : A → M B) (w : World) (a : A) :
  result (m w) = Returned a →
  result ((m ≫= f) w) = result (f a (world_after (m w))) ∧
  world_after ((m ≫= f) w) = world_after (f a (world_after (m w))) ∧
  output ((m ≫= f) w) = output (m w) ++ output (f a (world_after (m w))).
Proof.
  rewrite bind_run. unfold result, world_after, output.
  destruct (m w) as [[r w1] out1]; simpl. intros ->.
  destruct (f a w1) as [[r2 w2] out2]; done.
Qed.

(** A bind whose first part raises stops there. *)
Lemma bind_raised {A B} (m : M A) (f : A → M B) (w : World) (e : Exn) :
  result (m w) = Raised e →
  result ((m ≫= f) w) = Raised e ∧
  world_after ((m ≫= f) w) = world_after (m w) ∧
  output ((m ≫= f) w) = output (m w).
Proof.
  rewrite bind_run. unfold result, world_after, output.
  destruct (m w) as [[r w1] out1]; simpl. by intros ->.
Qed.

(** ** Relations every step of a computation keeps *)

Section Keeps.
Context (R : relation World) `{!PreOrder R}.

Lemma keeps_ret {A} (a : A) : keeps R (mret a).
Proof. intros w. reflexivity. Qed.

Lemma keeps_skip : keeps R skip.
Proof. intros w. reflexivity. Qed.

Lemma keeps_raise {A} (e : Exn) : keeps R (@raise A e).
Proof. intros w. reflexivity. Qed.

Lemma keeps_emit (ev : Event) : keeps R (emit ev).
Proof. intros w. reflexivity. Qed.

Lemma keeps_get_world : keeps R get_world.
Proof. intros w. reflexivity. Qed.

Lemma keeps_call {A} (r : Exn + A) : keeps R (call r).
Proof. intros w. destruct r; reflexivity. Qed.

Lemma keeps_bind {A B} (m : M A) (f : A → M B) :
  keeps R m → (∀ a, keeps R (f a)) → keeps R (m ≫= f).
Proof.
  intros Hm Hf w. specialize (Hm w).
  destruct (result (m w)) as [a|e] eqn:Hr.
  - destruct (bind_returned m f w a Hr) as (_ & -> & _).
    etrans; [exact Hm | apply Hf].
  - destruct (bind_raised m f w e Hr) as (_ & -> & _). exact Hm.
Qed.

Lemma keeps_for_each {A} (xs : list A) (body : A → M unit) :
  (∀ x, keeps R (body x)) → keeps R (for_each xs body).
Proof.
  intros Hbody. induction xs as [|x xs IH].
  - apply keeps_ret.
  - rewrite for_each_cons. apply keeps_bind; [apply Hbody | intros _; exact IH].
Qed.

End Keeps.


#[global] Instance same_session_preorder : PreOrder same_session.
Proof.
  split.
  - by intros w.
  - intros w1 w2 w3 [H1 H2] [H3 H4]. split; congruence.
Qed.


(** * The definitions on small inputs *)

Example str_replace_every_occurrence :
  str_replace "<p>{{MSG}}</p><i>{{MSG}}</i>" "{{MSG}}" "Hi" = "<p>Hi</p><i>Hi</i>".
Proof. reflexivity. Qed.

Example str_replace_no_occurrence :
  str_replace "<p>{MSG}</p>" "{{MSG}}" "Hi" = "<p>{MSG}</p>".
Proof. reflexivity. Qed.

Example get_chat_history_of_a_turn :
  get_chat_history [HumanMessage "Hi"; AIMessage "Nein."]
    = newline +:+ "Human: Hi" +:+ newline +:+ "Assistant: Nein.".
Proof. reflexivity. Qed.

Example get_chat_history_of_nothing : get_chat_history [] = "".
Proof. reflexivity. Qed.

(** A session: Process, a question, Process again, another question.  The
    page of the last run shows the one turn of the new conversation. *)
Example second_conversation_starts_empty :
  output (script demo_env (ask "Ho")
            (after_runs [click_Process "" [a_pdf]; ask "Hi"; click_Process "" [b_pdf]]
               fresh_world))
    = [ PyPrint "cpu"; StWrite "<style></style>";
        StHeader "Chat with multiple PDFs :books:";
        PrintResponse "Ho" [HumanMessage "Ho"; AIMessage "Nein."] "Nein.";
        StWrite "<user>Ho</user>"; StWrite "<bot>Nein.</bot>"; PyPrint "Nein.";
        StSubheader "Your documents" ].
Proof. vm_compute. reflexivity. Qed.

(** * Asking without an index *)

Lemma init_session_state_run (w : World) :
  init_session_state w =
    (Returned tt,
     {| session_state :=
          {| conversation := Some (default PyNone (conversation (session_state w)));
             chat_history := Some (default PyNone (chat_history (session_state w))) |};
        heap := heap w;
        uploaded_files := uploaded_files w |},
     []).
Proof.
  destruct w as [[[conv|] [hist|]] h d]; reflexivity.
Qed.

(** C1.  A question typed while the session has no conversation object (no
    Process has completed) is answered with the error message
    "Please upload your PDFs first and click on 'Process'" and with nothing
    else: the run returns, the chain is never called, heap and directory
    are untouched, and the session state is what it was, the two keys bound
    to [None] where they were still unbound. *)
Theorem ask_without_index_is_rejected (E : Env) (q : string)
    (docs : list UploadedFile) (w : World) :
  q ≠ "" →
  no_index w →
  let r := script E {| text_input := q; file_uploader := docs;
                       button_Process := false |} w in
  result r = Returned tt ∧
  output r = [ PyPrint (DEVICE E); StWrite (css E);
               StHeader "Chat with multiple PDFs :books:";
               StError please_upload;
               StSubheader "Your documents" ] ∧
  heap (world_after r) = heap w ∧
  uploaded_files (world_after r) = uploaded_files w ∧
  conversation (session_state (world_after r)) = Some PyNone ∧
  chat_history (session_state (world_after r))
    = Some (default PyNone (chat_history (session_state w))) ∧
  (initialised w → world_after r = w).
Proof.
  intros Hq Hidle.
  destruct q as [|ch q]; [done|].
  destruct w as [[conv hist] h d].
  destruct Hidle as [Hc|Hc]; simpl in Hc; subst conv.
  - destruct hist as [l|]; simpl; repeat split; try reflexivity.
    + intros [[c Hc] _]. discriminate Hc.
    + intros [[c Hc] _]. discriminate Hc.
  - destruct hist as [l|]; simpl; repeat split; try reflexivity.
    intros [_ [l Hl]]. discriminate Hl.
Qed.

Lemma ask_without_index_is_rejected_witness :
  "Hi" ≠ "" ∧ no_index fresh_world ∧
  output (script demo_env (ask "Hi") fresh_world)
    = [ PyPrint "cpu"; StWrite "<style></style>";
        StHeader "Chat with multiple PDFs :books:";
        StError please_upload;
        StSubheader "Your documents" ].
Proof.
  split; [done|]. split; [by left|].
  apply (ask_without_index_is_rejected demo_env "Hi" [] fresh_world); [done | by left].
Defined.

(** * Answering a question *)

Lemma for_each_emits {A} (xs : list A) (body : A → M unit) (out : A → list Event) :
  (∀ x w, body x w = (Returned tt, w, out x)) →
  ∀ w, for_each xs body w = (Returned tt, w, concat (out <$> xs)).
Proof.
  intros Hbody w. induction xs as [|x xs IH]; [reflexivity|].
  rewrite for_each_cons, bind_run, Hbody, IH. reflexivity.
Qed.

Lemma render_message_run (E : Env) (i : nat) (m : Message) (w : World) :
  render_message E i m w = (Returned tt, w, bubble E i m).
Proof.
  unfold render_message, bubble. by destruct (i mod 2 =? 0)%nat.
Qed.

(** Unfolds the monad and the state accessors in the goal. *)
Ltac run :=
  cbv [mbind M_bind bind mret M_ret ret call raise emit get_world put_world skip
       read_messages append_messages alloc_messages and_then
       session_conversation session_chat_history
       set_chat_history set_conversation set_uploaded_files];
  cbn.

(** The chain call, once the memory's list is known. *)
Lemma chain_call_run (E : Env) (c : Chain) (q : string) (h : PyOpt loc)
    (w : World) (msgs : list Message) :
  heap w !! chain_memory c = Some msgs →
  chain_call E c q h w =
    match chain_step E c msgs q with
    | inr answer =>
        (Returned {| resp_question := q;
                     resp_chat_history := chain_memory c;
                     resp_answer := answer |},
         with_messages w (chain_memory c)
           (msgs ++ [HumanMessage q; AIMessage answer]),
         [])
    | inl e => (Raised e, w, [])
    end.
Proof.
  intros Hm. unfold chain_call. run. rewrite Hm.
  destruct (chain_step E c msgs q) as [e|answer]; [reflexivity|].
  rewrite Hm. reflexivity.
Qed.

Lemma chain_call_dangling (E : Env) (c : Chain) (q : string) (h : PyOpt loc)
    (w : World) :
  heap w !! chain_memory c = None →
  chain_call E c q h w = (Raised (Exception "no such object"), w, []).
Proof.
  intros Hm. unfold chain_call. run. rewrite Hm. reflexivity.
Qed.

(** [handle_userinput], once the memory's list is known. *)
Lemma handle_userinput_run (E : Env) (q : string) (w : World) (c : Chain)
    (h : PyOpt loc) (msgs : list Message) :
  conversation (session_state w) = Some (PyObj c) →
  chat_history (session_state w) = Some h →
  heap w !! chain_memory c = Some msgs →
  handle_userinput E q w =
    match chain_step E c msgs q with
    | inr answer =>
        let history := msgs ++ [HumanMessage q; AIMessage answer] in
        (Returned tt,
         with_chat_history (with_messages w (chain_memory c) history) (chain_memory c),
         PrintResponse q history answer
           :: concat ((λ im, bubble E im.1 im.2) <$> imap pair history))
    | inl e => (Raised e, w, [])
    end.
Proof.
  intros Hc Hh Hm. unfold handle_userinput.
  unfold session_conversation, session_chat_history.
  rewrite !bind_run. simpl. rewrite Hc. simpl. rewrite !bind_run. simpl.
  rewrite Hh. simpl.
  rewrite bind_run, (chain_call_run E c q h w msgs Hm).
  destruct (chain_step E c msgs q) as [e|answer]; [reflexivity|].
  assert (Hlt : chain_memory c < length (heap w)) by (by eapply lookup_lt_Some).
  unfold with_chat_history, with_messages. run.
  rewrite list_lookup_insert_eq by done. cbn.
  rewrite list_lookup_insert_eq by done. cbn.
  rewrite (for_each_emits _ _ (λ im, bubble E im.1 im.2))
    by (intros; apply render_message_run).
  reflexivity.
Qed.

Lemma handle_userinput_dangling (E : Env) (q : string) (w : World) (c : Chain)
    (h : PyOpt loc) :
  conversation (session_state w) = Some (PyObj c) →
  chat_history (session_state w) = Some h →
  heap w !! chain_memory c = None →
  handle_userinput E q w = (Raised (Exception "no such object"), w, []).
Proof.
  intros Hc Hh Hm. unfold handle_userinput.
  unfold session_conversation, session_chat_history.
  rewrite !bind_run. simpl. rewrite Hc. simpl. rewrite !bind_run. simpl.
  rewrite Hh. simpl.
  rewrite bind_run, (chain_call_dangling E c q h w Hm). reflexivity.
Qed.

Lemma handle_userinput_unbound (E : Env) (q : string) (w : World) (c : Chain) :
  conversation (session_state w) = Some (PyObj c) →
  chat_history (session_state w) = None →
  world_after (handle_userinput E q w) = w ∧
  ∃ e, result (handle_userinput E q w) = Raised e.
Proof.
  intros Hc Hh. unfold handle_userinput.
  unfold session_conversation, session_chat_history.
  rewrite !bind_run. simpl. rewrite Hc. simpl. rewrite !bind_run. simpl.
  rewrite Hh. simpl. eauto.
Qed.

(** With a conversation object, a typed question goes to [handle_userinput]. *)
Lemma question_section_ready (E : Env) (q : string) (w : World) (c : Chain) :
  q ≠ "" →
  conversation (session_state w) = Some (PyObj c) →
  question_section E q w = handle_userinput E q w.
Proof.
  intros Hq Hc. unfold question_section.
  destruct q as [|ch q]; [done|].
  with_strategy opaque [handle_userinput] run. rewrite Hc. simpl.
  by destruct (handle_userinput E _ w) as [[r w'] out].
Qed.

Lemma memory_history_lookup (w : World) (c : Chain) (msgs : list Message) :
  conversation (session_state w) = Some (PyObj c) →
  heap w !! chain_memory c = Some msgs →
  memory_history w = msgs.
Proof. intros Hc Hm. unfold memory_history. by rewrite Hc, Hm. Qed.

(** A query that raises leaves everything as it was: no turn is saved. *)
Lemma failed_query_changes_nothing (E : Env) (q : string) (w : World) (c : Chain)
    (e : Exn) :
  conversation (session_state w) = Some (PyObj c) →
  result (handle_userinput E q w) = Raised e →
  world_after (handle_userinput E q w) = w.
Proof.
  intros Hc.
  destruct (chat_history (session_state w)) as [h|] eqn:Hh;
    [|intros _; by apply (handle_userinput_unbound E q w c)].
  destruct (heap w !! chain_memory c) as [msgs|] eqn:Hm.
  - rewrite (handle_userinput_run E q w c h msgs Hc Hh Hm).
    by destruct (chain_step E c msgs q).
  - by rewrite (handle_userinput_dangling E q w c h Hc Hh Hm).
Qed.

(** C8.  A question answered while a conversation object is installed
    appends exactly the turn (question, answer) to the chat history the
    conversation owns: the history afterwards is the history before followed
    by the user's question and the generated answer, so no earlier message
    is changed or dropped.  The session's [chat_history] variable then refers
    to that same list; the conversation object, every other list and the
    directory are as before. *)
Theorem successful_query_appends_one_turn (E : Env) (q : string) (w : World)
    (c : Chain) :
  q ≠ "" →
  conversation (session_state w) = Some (PyObj c) →
  result (question_section E q w) = Returned tt →
  let w' := world_after (question_section E q w) in
  ∃ answer,
    chain_step E c (memory_history w) q = inr answer ∧
    memory_history w' = memory_history w ++ [HumanMessage q; AIMessage answer] ∧
    session_history w' = Some (memory_history w') ∧
    conversation (session_state w') = Some (PyObj c) ∧
    (∀ l, l ≠ chain_memory c → heap w' !! l = heap w !! l) ∧
    uploaded_files w' = uploaded_files w.
Proof.
  intros Hq Hc. rewrite (question_section_ready E q w c Hq Hc).
  destruct (chat_history (session_state w)) as [h|] eqn:Hh;
    [|destruct (handle_userinput_unbound E q w c Hc Hh) as [_ [e He]]; congruence].
  destruct (heap w !! chain_memory c) as [msgs|] eqn:Hm.
  - rewrite (handle_userinput_run E q w c h msgs Hc Hh Hm).
    rewrite (memory_history_lookup w c msgs Hc Hm).
    destruct (chain_step E c msgs q) as [e|answer]; [done|].
    intros _. exists answer.
    assert (Hlt : chain_memory c < length (heap w)) by (by eapply lookup_lt_Some).
    unfold memory_history, session_history, world_after; simpl.
    rewrite Hc, list_lookup_insert_eq by done. simpl.
    repeat split; try done.
    intros l Hl. by rewrite list_lookup_insert_ne.
  - by rewrite (handle_userinput_dangling E q w c h Hc Hh Hm).
Qed.

Example ready_world_is_reached :
  after_runs [click_Process "" [a_pdf]] fresh_world = ready_world.
Proof. vm_compute. reflexivity. Qed.

Lemma successful_query_appends_one_turn_witness :
  "Hi" ≠ "" ∧
  conversation (session_state ready_world) = Some (PyObj demo_chain) ∧
  result (question_section demo_env "Hi" ready_world) = Returned tt ∧
  ∃ answer,
    chain_step demo_env demo_chain (memory_history ready_world) "Hi" = inr answer ∧
    memory_history (world_after (question_section demo_env "Hi" ready_world))
      = memory_history ready_world ++ [HumanMessage "Hi"; AIMessage answer] ∧
    session_history (world_after (question_section demo_env "Hi" ready_world))
      = Some (memory_history (world_after (question_section demo_env "Hi" ready_world))) ∧
    conversation (session_state (world_after (question_section demo_env "Hi" ready_world)))
      = Some (PyObj demo_chain) ∧
    (∀ l, l ≠ chain_memory demo_chain →
       heap (world_after (question_section demo_env "Hi" ready_world)) !! l
         = heap ready_world !! l) ∧
    uploaded_files (world_after (question_section demo_env "Hi" ready_world))
      = uploaded_files ready_world.
Proof.
  split; [done|]. split; [reflexivity|]. split; [reflexivity|].
  apply (successful_query_appends_one_turn demo_env "Hi" ready_world demo_chain);
    [done | reflexivity | reflexivity].
Defined.

(** * What the stages of Process leave alone *)

Create HintDb keeps.

Lemma keeps_os_path_isdir : keeps same_session os_path_isdir.
Proof. by intros w. Qed.

Lemma keeps_os_listdir : keeps same_session os_listdir.
Proof. intros w. unfold os_listdir. run. by destruct (uploaded_files w). Qed.

Lemma keeps_os_remove (f : string) : keeps same_session (os_remove f).
Proof.
  intros w. unfold os_remove. run.
  destruct (uploaded_files w) as [d|]; [|done]. by destruct (d !! f).
Qed.

Lemma keeps_os_mkdir : keeps same_session os_mkdir.
Proof. intros w. unfold os_mkdir. run. by destruct (uploaded_files w). Qed.

Lemma keeps_write_file (E : Env) (name : string) (data : list Byte.byte) :
  keeps same_session (write_file E name data).
Proof.
  intros w. unfold write_file. run.
  destruct (uploaded_files w) as [d|]; [|done]. by destruct (open_wb E name data).
Qed.

#[global] Hint Resolve keeps_os_path_isdir keeps_os_listdir keeps_os_remove
  keeps_os_mkdir keeps_write_file : keeps.

(** One step of a proof that a computation keeps a relation: by the shape of
    the computation. *)
Ltac keeps_step :=
  match goal with
  | |- PreOrder _ => tc_solve
  | |- ∀ _, _ => intros ?
  | |- keeps _ (_ ≫= _) => apply keeps_bind
  | |- keeps _ (mret _) => apply keeps_ret
  | |- keeps _ skip => apply keeps_skip
  | |- keeps _ (raise _) => apply keeps_raise
  | |- keeps _ (emit _) => apply keeps_emit
  | |- keeps _ get_world => apply keeps_get_world
  | |- keeps _ (call _) => apply keeps_call
  | |- keeps _ (for_each _ _) => apply keeps_for_each
  | |- keeps _ (if ?b then _ else _) => destruct b
  | |- keeps _ (match ?x with _ => _ end) => destruct x
  end.

Ltac keeps_auto := repeat keeps_step; auto with keeps.

Lemma keeps_get_pdf_text (E : Env) (pdf_docs : list UploadedFile) :
  keeps same_session (get_pdf_text E pdf_docs).
Proof. unfold get_pdf_text, delete_old_files, save_upload. keeps_auto. Qed.

Lemma keeps_get_text_chunks (E : Env) (text : list Document) :
  keeps eq (get_text_chunks E text).
Proof. unfold get_text_chunks. keeps_auto. Qed.

Lemma keeps_get_vectorstore (E : Env) (text_chunks : list Document) :
  keeps eq (get_vectorstore E text_chunks).
Proof. unfold get_vectorstore. keeps_auto. Qed.

Lemma get_conversation_chain_run (E : Env) (vectorstore : VectorStore) (w : World) :
  get_conversation_chain E vectorstore w =
    match from_quantized E "TheBloke/Llama-2-13B-chat-GPTQ" (DEVICE E) with
    | inr _ =>
        match tokenizer_from_pretrained E "TheBloke/Llama-2-13B-chat-GPTQ" with
        | inr _ =>
            match pipeline_init E (chain_llm (built_chain E vectorstore 0)) with
            | inr _ =>
                (Returned (built_chain E vectorstore (length (heap w))),
                 {| session_state := session_state w;
                    heap := heap w ++ [[]];
                    uploaded_files := uploaded_files w |},
                 [])
            | inl e => (Raised e, w, [])
            end
        | inl e => (Raised e, w, [])
        end
    | inl e => (Raised e, w, [])
    end.
Proof.
  unfold get_conversation_chain. run.
  destruct (from_quantized E _ _); [reflexivity|].
  destruct (tokenizer_from_pretrained E _); [reflexivity|].
  by destruct (pipeline_init E _).
Qed.

(** The Process block either raises, with session state and heap as they
    were, or returns with a new conversation object installed whose memory
    is a new empty list. *)
Lemma processing_outcome (E : Env) (pdf_docs : list UploadedFile) (w : World) :
  let r := processing E pdf_docs w in
  (∃ e, result r = Raised e ∧ same_session w (world_after r)) ∨
  (∃ vectorstore,
     result r = Returned tt ∧
     conversation (session_state (world_after r))
       = Some (PyObj (built_chain E vectorstore (length (heap w)))) ∧
     chat_history (session_state (world_after r)) = chat_history (session_state w) ∧
     heap (world_after r) = heap w ++ [[]]).
Proof.
  unfold processing.
  pose proof (keeps_get_pdf_text E pdf_docs w) as [Hs Hh].
  unfold world_after in Hs, Hh.
  rewrite bind_run.
  destruct (get_pdf_text E pdf_docs w) as [[[raw|e] w1] out1];
    simpl in Hs, Hh; [|left; exists e; by split].
  unfold get_text_chunks, get_vectorstore, get_conversation_chain. run.
  destruct (split_documents E 1000 200 raw) as [e|chunks];
    [left; exists e; by split|].
  destruct (load_embeddings E _) as [e|[]]; [left; exists e; by split|].
  destruct (faiss_from_documents E _ _) as [e|[]]; [left; exists e; by split|].
  destruct (from_quantized E _ _) as [e|[]]; [left; exists e; by split|].
  destruct (tokenizer_from_pretrained E _) as [e|[]]; [left; exists e; by split|].
  destruct (pipeline_init E _) as [e|[]]; [left; exists e; by split|].
  right. eexists. unfold result, world_after, built_chain. simpl.
  repeat split; [by rewrite Hh|congruence|congruence].
Qed.

(** * The directory during Process *)

#[global] Instance same_dir_preorder : PreOrder same_dir.
Proof.
  split.
  - by intros w.
  - intros w1 w2 w3 H1 H2. unfold same_dir in *. congruence.
Qed.

Lemma with_uploaded_files_same (w : World)
    (d : option (gmap string (list Byte.byte))) :
  uploaded_files w = d → with_uploaded_files w d = w.
Proof. intros <-. by destruct w. Qed.

Lemma os_remove_run (f : string) (w : World) (d : gmap string (list Byte.byte))
    (v : list Byte.byte) :
  uploaded_files w = Some d →
  d !! f = Some v →
  os_remove f w = (Returned tt, with_uploaded_files w (Some (delete f d)), []).
Proof. intros Hd Hf. unfold os_remove. run. by rewrite Hd, Hf. Qed.

(** Removing the listed files one after the other goes through when each
    is there and none is listed twice. *)
Lemma remove_each_run (keys : list string) :
  ∀ (w : World) (d : gmap string (list Byte.byte)),
    uploaded_files w = Some d →
    NoDup keys →
    (∀ k, k ∈ keys → is_Some (d !! k)) →
    for_each keys os_remove w =
      (Returned tt,
       with_uploaded_files w (Some (foldl (λ d k, delete k d) d keys)),
       []).
Proof.
  induction keys as [|k keys IH]; intros w d Hd Hnd Hin.
  - rewrite for_each_nil. simpl. by rewrite with_uploaded_files_same.
  - apply NoDup_cons in Hnd as [Hk Hnd].
    destruct (Hin k) as [v Hv]; [by left|].
    rewrite for_each_cons, bind_run, (os_remove_run k w d v Hd Hv).
    rewrite (IH (with_uploaded_files w (Some (delete k d))) (delete k d));
      [reflexivity | reflexivity | exact Hnd |].
    intros k' Hk'. rewrite lookup_delete_ne; [apply Hin; by right|].
    by intros ->.
Qed.

Lemma lookup_delete_each (keys : list string) :
  ∀ (d : gmap string (list Byte.byte)) (k : string),
    k ∈ keys ∨ d !! k = None →
    foldl (λ d k, delete k d) d keys !! k = None.
Proof.
  induction keys as [|k0 keys IH]; intros d k Hk; simpl.
  - destruct Hk as [Hk|Hk]; [by apply elem_of_nil in Hk | done].
  - apply IH. destruct Hk as [Hk|Hk].
    + apply elem_of_cons in Hk as [->|Hk]; [right; apply lookup_delete_eq | by left].
    + right. apply lookup_delete_None. by right.
Qed.

(** Deleting the old files empties the directory, if there is one. *)
Lemma delete_old_files_run (w : World) :
  delete_old_files w =
    (Returned tt, with_uploaded_files w ((λ _, ∅) <$> uploaded_files w), []).
Proof.
  unfold delete_old_files, os_path_isdir, os_listdir.
  rewrite !bind_run. simpl.
  destruct (uploaded_files w) as [d|] eqn:Hd; simpl.
  - rewrite !bind_run. simpl. rewrite Hd. simpl.
    rewrite (remove_each_run _ w d Hd).
    + simpl. do 3 f_equal. f_equal. apply map_eq. intros k.
      rewrite lookup_empty. apply lookup_delete_each.
      destruct (d !! k) as [v|] eqn:Hk; [left | by right].
      apply list_elem_of_fmap. exists (k, v). split; [done|].
      by apply elem_of_map_to_list.
    + apply NoDup_fst_map_to_list.
    + intros k Hk. apply list_elem_of_fmap in Hk as [[k' v] [-> Hkv]].
      apply elem_of_map_to_list in Hkv. by exists v.
  - by rewrite with_uploaded_files_same.
Qed.

(** Saving one upload: the directory is made if it is missing, then the
    file is written or the write raises. *)
Lemma save_upload_run (E : Env) (uf : UploadedFile) (w : World) :
  save_upload E uf w =
    let d := default ∅ (uploaded_files w) in
    match open_wb E (uf_name uf) (uf_getvalue uf) with
    | inr _ =>
        (Returned tt,
         with_uploaded_files w (Some (<[uf_name uf := uf_getvalue uf]> d)),
         [StSuccess "File has been uploaded and saved to the session."])
    | inl e => (Raised e, with_uploaded_files w (Some d), [])
    end.
Proof.
  unfold save_upload, os_path_isdir, os_mkdir, write_file. run.
  destruct (uploaded_files w) as [d|] eqn:Hd; simpl.
  - rewrite Hd. destruct (open_wb E _ _); [|reflexivity].
    by rewrite with_uploaded_files_same.
  - rewrite Hd. simpl. by destruct (open_wb E _ _).
Qed.

Lemma only_batch_empty (docs : list UploadedFile) : only_batch docs ∅.
Proof. intros name data H. by rewrite lookup_empty in H. Qed.

Lemma only_batch_insert (docs : list UploadedFile) (uf : UploadedFile)
    (d : gmap string (list Byte.byte)) :
  uf ∈ docs → only_batch docs d →
  only_batch docs (<[uf_name uf := uf_getvalue uf]> d).
Proof.
  intros Huf Hd name data H.
  destruct (decide (uf_name uf = name)) as [<-|Hne].
  - rewrite lookup_insert_eq in H. injection H as <-. by exists uf.
  - rewrite lookup_insert_ne in H by done. by apply Hd.
Qed.

(** While the uploads are saved the directory exists and holds only files
    of the batch, also when a write raises. *)
Lemma save_uploads_dir (E : Env) (all docs : list UploadedFile) :
  ∀ (w : World) (d : gmap string (list Byte.byte)),
    uploaded_files w = Some d →
    only_batch all d →
    (∀ uf, uf ∈ docs → uf ∈ all) →
    ∃ d', uploaded_files (world_after (for_each docs (save_upload E) w)) = Some d' ∧
          only_batch all d'.
Proof.
  induction docs as [|uf docs IH]; intros w d Hd Hb Hsub.
  - exists d. by rewrite for_each_nil.
  - rewrite for_each_cons, bind_run, save_upload_run, Hd. simpl.
    destruct (open_wb E _ _) as [e|[]].
    + by exists d.
    + edestruct (IH (with_uploaded_files w (Some (<[uf_name uf := uf_getvalue uf]> d))))
        as (d' & Hd' & Hb'); [reflexivity | | |].
      * apply only_batch_insert; [apply Hsub; by left | done].
      * intros uf' Huf'. apply Hsub. by right.
      * exists d'. split; [|done]. rewrite <- Hd'. unfold world_after.
        by destruct (for_each docs _ _) as [[r w2] out2].
Qed.

(** What follows a computation and leaves the directory alone does not
    change what the computation left there. *)
Lemma bind_same_dir {A B} (m : M A) (f : A → M B) (w : World) :
  (∀ a, keeps same_dir (f a)) →
  uploaded_files (world_after ((m ≫= f) w)) = uploaded_files (world_after (m w)).
Proof.
  intros Hf. destruct (result (m w)) as [a|e] eqn:Hr.
  - destruct (bind_returned m f w a Hr) as (_ & -> & _). apply Hf.
  - by destruct (bind_raised m f w e Hr) as (_ & -> & _).
Qed.

Lemma keeps_dir_alloc_messages : keeps same_dir alloc_messages.
Proof. by intros w. Qed.

Lemma keeps_dir_set_conversation (c : PyOpt Chain) : keeps same_dir (set_conversation c).
Proof. by intros w. Qed.

#[global] Hint Resolve keeps_dir_alloc_messages keeps_dir_set_conversation : keeps.

(** After [get_pdf_text] on a batch that is not empty, however it ends, the
    directory exists and holds only files of that batch. *)
Lemma get_pdf_text_dir (E : Env) (pdf_docs : list UploadedFile) (w : World) :
  pdf_docs ≠ [] →
  ∃ d', uploaded_files (world_after (get_pdf_text E pdf_docs w)) = Some d' ∧
        only_batch pdf_docs d'.
Proof.
  intros Hne. unfold get_pdf_text.
  destruct (bind_returned delete_old_files
              (λ _, for_each pdf_docs (save_upload E);;
                    w ← get_world;
                    docs ← call (loader_load E (uploaded_files w));
                    emit (StWrite ("Loaded " +:+ pretty (length docs) +:+ " PDFs"));;
                    emit (StWrite "Type: <class 'list'>");;
                    mret docs)
              w tt) as (_ & -> & _);
    [by rewrite delete_old_files_run|].
  rewrite bind_same_dir by (intros; keeps_auto).
  rewrite delete_old_files_run. unfold world_after at 2. simpl.
  destruct pdf_docs as [|uf docs]; [done|].
  rewrite for_each_cons, bind_run, save_upload_run. simpl.
  destruct (open_wb E _ _) as [e|[]].
  - exists (default ∅ ((λ _, ∅) <$> uploaded_files w)). split; [done|].
    destruct (uploaded_files w); apply only_batch_empty.
  - edestruct (save_uploads_dir E (uf :: docs) docs
                 (with_uploaded_files
                    (with_uploaded_files w ((λ _, ∅) <$> uploaded_files w))
                    (Some (<[uf_name uf := uf_getvalue uf]>
                             (default ∅ ((λ _, ∅) <$> uploaded_files w))))))
      as (d' & Hd' & Hb'); [reflexivity | | |].
    + apply only_batch_insert; [by left|].
      destruct (uploaded_files w); apply only_batch_empty.
    + intros uf' Huf'. by right.
    + exists d'. split; [|done]. rewrite <- Hd'. unfold world_after.
      by destruct (for_each docs _ _) as [[r w2] out2].
Qed.

Lemma processing_dir (E : Env) (pdf_docs : list UploadedFile) (w : World) :
  uploaded_files (world_after (processing E pdf_docs w))
    = uploaded_files (world_after (get_pdf_text E pdf_docs w)).
Proof.
  unfold processing. apply bind_same_dir.
  intros raw. unfold get_text_chunks, get_vectorstore, get_conversation_chain.
  keeps_auto.
Qed.

(** * A failing Process *)

(** A click on Process with files uploaded runs the Process block. *)
Lemma sidebar_section_process (E : Env) (pdf_docs : list UploadedFile) (w : World) :
  pdf_docs ≠ [] →
  result (sidebar_section E pdf_docs true w) = result (processing E pdf_docs w) ∧
  world_after (sidebar_section E pdf_docs true w)
    = world_after (processing E pdf_docs w).
Proof.
  intros Hne. destruct pdf_docs as [|uf docs]; [done|].
  unfold sidebar_section. rewrite bind_run. simpl.
  unfold result, world_after.
  by destruct (processing E (uf :: docs) w) as [[r w'] out].
Qed.

(** C3, as the code has it.  When a click on Process raises, in whatever
    stage (saving a file, loading the PDFs, chunking, loading the embedding
    model, building the index, loading the language model), the session
    state and the heap are exactly what they were: the conversation object
    built before, its memory and the [chat_history] variable.  The directory
    [uploaded_files] is not restored: it exists and holds only files of the
    new batch, the files saved before are gone. *)
Theorem failed_process_keeps_session (E : Env) (pdf_docs : list UploadedFile)
    (w : World) (e : Exn) :
  pdf_docs ≠ [] →
  result (sidebar_section E pdf_docs true w) = Raised e →
  let w' := world_after (sidebar_section E pdf_docs true w) in
  session_state w' = session_state w ∧
  heap w' = heap w ∧
  ∃ d', uploaded_files w' = Some d' ∧ only_batch pdf_docs d'.
Proof.
  intros Hne. destruct (sidebar_section_process E pdf_docs w Hne) as [-> ->].
  intros Hr. simpl.
  destruct (processing_outcome E pdf_docs w) as [(e' & _ & Hs & Hh)|(vs & Hok & _)];
    [|congruence].
  split; [done|]. split; [done|].
  rewrite processing_dir. by apply get_pdf_text_dir.
Qed.

Lemma failed_process_keeps_session_witness :
  [b_pdf] ≠ [] ∧
  result (sidebar_section broken_loader_env [b_pdf] true ready_world)
    = Raised (Exception "PdfReadError") ∧
  session_state (world_after (sidebar_section broken_loader_env [b_pdf] true ready_world))
    = session_state ready_world ∧
  heap (world_after (sidebar_section broken_loader_env [b_pdf] true ready_world))
    = heap ready_world ∧
  ∃ d', uploaded_files (world_after (sidebar_section broken_loader_env [b_pdf] true ready_world))
          = Some d' ∧ only_batch [b_pdf] d'.
Proof.
  split; [done|]. split; [reflexivity|].
  apply (failed_process_keeps_session broken_loader_env [b_pdf] ready_world
           (Exception "PdfReadError")); [done | reflexivity].
Defined.

(** C3, as the specification has it, fails: the PDF loader raises in a
    session that had [a.pdf] saved and indexed; afterwards the directory
    holds [b.pdf] and no [a.pdf]. *)
Lemma failed_process_loses_old_files :
  result (sidebar_section broken_loader_env [b_pdf] true ready_world)
    = Raised (Exception "PdfReadError") ∧
  uploaded_files ready_world = Some {[ "a.pdf" := [] ]} ∧
  uploaded_files (world_after (sidebar_section broken_loader_env [b_pdf] true ready_world))
    = Some {[ "b.pdf" := [] ]} ∧
  ¬ process_is_atomic broken_loader_env [b_pdf] ready_world.
Proof.
  split; [reflexivity|]. split; [reflexivity|]. split; [by vm_compute|].
  intros Hatomic. specialize (Hatomic (Exception "PdfReadError") eq_refl).
  apply (f_equal (λ w, uploaded_files w ≫= (.!! "a.pdf"))) in Hatomic.
  vm_compute in Hatomic. discriminate Hatomic.
Qed.

(** * The question generator *)

Example custom_template_text :
  custom_template =
    "Given the following conversation and a follow up question, rephrase the follow up question to be "
    +:+ newline +:+
    "a standalone question. At the end of standalone question add this 'Answer the question in German language.' If you do "
    +:+ newline +:+
    "not know the answer reply with 'I am sorry'. Chat History: {chat_history} Follow Up Input: {question} Standalone "
    +:+ newline +:+ "question:".
Proof. reflexivity. Qed.

Lemma string_length_app (s1 s2 : string) :
  String.length (s1 +:+ s2) = String.length s1 + String.length s2.
Proof. induction s1 as [|c s1 IH]; simpl; [done | by rewrite IH]. Qed.

(** A history with a message in it renders to a string that is not empty. *)
Lemma get_chat_history_truthy (m : Message) (msgs : list Message) :
  truthy_str (get_chat_history (m :: msgs)) = true.
Proof.
  unfold get_chat_history. simpl.
  assert (H : ∀ l buffer, truthy_str buffer = true →
            truthy_str (foldl (λ buffer m, buffer +:+ newline +:+ role_prefix m +:+ content m)
                          buffer l) = true).
  { induction l as [|m' l IH]; intros buffer Hb; [done|].
    simpl. apply IH. destruct buffer; [done | reflexivity]. }
  by apply H.
Qed.

Lemma format_prompt (chat_history_str question : string) :
  format_pieces prompt [("question", question); ("chat_history", chat_history_str)]
    = inr (condense_prompt_text chat_history_str question).
Proof.
  unfold prompt, condense_prompt_text. simpl format_pieces.
  replace ((list_to_map [("question", question); ("chat_history", chat_history_str)]
              : gmap string string) !! "chat_history") with (Some chat_history_str)
    by (simpl; by rewrite lookup_insert_ne, lookup_insert_eq).
  replace ((list_to_map [("question", question); ("chat_history", chat_history_str)]
              : gmap string string) !! "question") with (Some question)
    by (simpl; by rewrite lookup_insert_eq).
  vm_compute. reflexivity.
Qed.

(** C4, as the code has it.  With an empty history the question generator
    is not run: the standalone question is the input question, unchanged,
    and no language instruction is appended.  The instruction is a sentence
    of the condense prompt; with a history that is not empty the standalone
    question is what the language model generates from that prompt. *)
Theorem condense_empty_history_is_identity (E : Env) (c : Chain) (q : string) :
  condense_question E c [] q = inr q ∧
  ¬ condenser_appends_instruction E c q ∧
  ∀ (vectorstore : VectorStore) (memory : loc) (m : Message) (msgs : list Message),
    condense_question E (built_chain E vectorstore memory) (m :: msgs) q
      = llm_generate E (chain_llm (built_chain E vectorstore memory))
          (condense_prompt_text (get_chat_history (m :: msgs)) q).
Proof.
  split; [reflexivity|]. split.
  - intros [sep H]. simpl in H. injection H as H.
    apply (f_equal String.length) in H.
    rewrite !string_length_app in H. simpl in H. lia.
  - intros vectorstore memory m msgs. unfold condense_question.
    rewrite get_chat_history_truthy. simpl condense_question_prompt.
    by rewrite format_prompt.
Qed.

(** C4, as the specification has it, fails: the question "Hi" asked with an
    empty history is passed on as "Hi". *)
Lemma empty_history_question_is_not_extended :
  condense_question demo_env demo_chain [] "Hi" = inr "Hi" ∧
  ¬ condenser_appends_instruction demo_env demo_chain "Hi".
Proof.
  split; [reflexivity|].
  intros [sep H]. simpl in H. injection H as H.
  apply (f_equal String.length) in H.
  rewrite !string_length_app in H. simpl in H. lia.
Qed.

(** * One run of the script, by its parts *)

(** The question box either leaves the world as it is (no question, no
    conversation, or a query that raised) or answers the question and saves
    the turn. *)
Lemma question_section_cases (E : Env) (q : string) (w : World) :
  let r := question_section E q w in
  world_after r = w ∨
  ∃ c msgs answer,
    q ≠ "" ∧
    conversation (session_state w) = Some (PyObj c) ∧
    heap w !! chain_memory c = Some msgs ∧
    chain_step E c msgs q = inr answer ∧
    result r = Returned tt ∧
    world_after r =
      with_chat_history
        (with_messages w (chain_memory c) (msgs ++ [HumanMessage q; AIMessage answer]))
        (chain_memory c).
Proof.
  simpl. destruct (decide (q = "")) as [->|Hq]; [by left|].
  destruct (conversation (session_state w)) as [[|c]|] eqn:Hc.
  - left. unfold question_section. destruct q as [|ch q]; [done|].
    with_strategy opaque [handle_userinput] run. rewrite Hc. cbn. by rewrite ?Hc.
  - rewrite (question_section_ready E q w c Hq Hc).
    destruct (chat_history (session_state w)) as [h|] eqn:Hh;
      [|left; by apply (handle_userinput_unbound E q w c)].
    destruct (heap w !! chain_memory c) as [msgs|] eqn:Hm.
    + rewrite (handle_userinput_run E q w c h msgs Hc Hh Hm).
      destruct (chain_step E c msgs q) as [e|answer] eqn:Hstep; [by left|].
      right. by exists c, msgs, answer.
    + left. by rewrite (handle_userinput_dangling E q w c h Hc Hh Hm).
  - left. unfold question_section. destruct q as [|ch q]; [done|].
    with_strategy opaque [handle_userinput] run. rewrite Hc. cbn. by rewrite ?Hc.
Qed.

(** Without a click on Process, or with no file uploaded, the sidebar
    changes nothing. *)
Lemma sidebar_section_idle (E : Env) (pdf_docs : list UploadedFile) (clicked : bool)
    (w : World) :
  clicked = false ∨ pdf_docs = [] →
  result (sidebar_section E pdf_docs clicked w) = Returned tt ∧
  world_after (sidebar_section E pdf_docs clicked w) = w.
Proof.
  intros [->| ->]; [done|]. by destruct clicked.
Qed.

(** A run is the initialisation of the session state, the question box and
    the sidebar, in this order; the sidebar is reached only when the
    question box did not raise. *)
Lemma script_cases (E : Env) (ui : Widgets) (w : World) :
  let w1 := world_after (init_session_state w) in
  let r2 := question_section E (text_input ui) w1 in
  let r3 := sidebar_section E (file_uploader ui) (button_Process ui) (world_after r2) in
  (∃ e, result r2 = Raised e ∧
        result (script E ui w) = Raised e ∧
        world_after (script E ui w) = world_after r2) ∨
  (result r2 = Returned tt ∧
   result (script E ui w) = result r3 ∧
   world_after (script E ui w) = world_after r3).
Proof.
  simpl. unfold script, main.
  with_strategy opaque [init_session_state question_section sidebar_section] run.
  rewrite init_session_state_run. unfold result, world_after. simpl.
  destruct (question_section E (text_input ui) _) as [[[[]|e] w2] out2]; simpl.
  - right. by destruct (sidebar_section E _ _ w2) as [[r3 w3] out3].
  - left. by exists e.
Qed.

Lemma init_session_state_keeps_memory (w : World) :
  memory_history (world_after (init_session_state w)) = memory_history w ∧
  heap (world_after (init_session_state w)) = heap w.
Proof.
  rewrite init_session_state_run. unfold memory_history, world_after. simpl.
  by destruct (conversation (session_state w)) as [[|c]|].
Qed.

Lemma same_session_memory_history (w w' : World) :
  same_session w w' → memory_history w' = memory_history w.
Proof. intros [Hs Hh]. unfold memory_history. by rewrite Hs, Hh. Qed.

(** The question box never empties a history that has a turn in it. *)
Lemma question_section_keeps_turns (E : Env) (q : string) (w : World) :
  memory_history w ≠ [] →
  memory_history (world_after (question_section E q w)) ≠ [].
Proof.
  intros Hne.
  destruct (question_section_cases E q w) as [->|(c & msgs & a & _ & Hc & Hm & _ & _ & ->)];
    [done|].
  assert (Hlt : chain_memory c < length (heap w)) by (by eapply lookup_lt_Some).
  unfold memory_history. simpl. rewrite Hc, list_lookup_insert_eq by done. simpl.
  by destruct msgs.
Qed.

(** * Process and the chat history *)

Lemma memory_history_fresh_chain (w : World) (c : Chain) (h : list (list Message)) :
  conversation (session_state w) = Some (PyObj c) →
  chain_memory c = length h →
  heap w = h ++ [[]] →
  memory_history w = [].
Proof.
  intros Hc Hl Hh. unfold memory_history.
  by rewrite Hc, Hh, Hl, list_lookup_middle.
Qed.

(** The [chat_history] variable of the session is not touched by Process:
    it keeps referring to the list of the conversation that was replaced,
    until the next answered question binds it to the new memory. *)
Lemma process_leaves_chat_history_variable (E : Env) (pdf_docs : list UploadedFile)
    (w : World) :
  chat_history (session_state (world_after (processing E pdf_docs w)))
    = chat_history (session_state w).
Proof.
  destruct (processing_outcome E pdf_docs w)
    as [(e & _ & Hs & _)|(vs & _ & _ & Hh & _)]; [by rewrite Hs | done].
Qed.

(** The first question answered by a new conversation: whatever the
    [chat_history] variable referred to before, it then refers to the one
    turn of the new conversation. *)
Lemma first_query_of_a_conversation (E : Env) (q : string) (w : World) (c : Chain)
    (h : PyOpt loc) :
  conversation (session_state w) = Some (PyObj c) →
  chat_history (session_state w) = Some h →
  heap w !! chain_memory c = Some [] →
  result (handle_userinput E q w) = Returned tt →
  ∃ answer,
    session_history (world_after (handle_userinput E q w))
      = Some [HumanMessage q; AIMessage answer].
Proof.
  intros Hc Hh Hm. rewrite (handle_userinput_run E q w c h [] Hc Hh Hm).
  destruct (chain_step E c [] q) as [e|answer]; [done|].
  intros _. exists answer.
  assert (Hlt : chain_memory c < length (heap w)) by (by eapply lookup_lt_Some).
  unfold session_history, world_after. simpl.
  by rewrite list_lookup_insert_eq.
Qed.

(** C2.  A run in which Process is clicked with files uploaded and which
    completes leaves the chat history of the session's conversation empty:
    the conversation object installed is new and so is its memory.  And only
    such a run empties it: if the history had a turn before a run and is
    empty after it, the run was a completed Process. *)
Theorem process_resets_chat_history (E : Env) (ui : Widgets) (w : World) :
  (button_Process ui = true → file_uploader ui ≠ [] →
   result (script E ui w) = Returned tt →
   memory_history (world_after (script E ui w)) = []) ∧
  (memory_history w ≠ [] →
   memory_history (world_after (script E ui w)) = [] →
   button_Process ui = true ∧ file_uploader ui ≠ [] ∧
   result (script E ui w) = Returned tt).
Proof.
  pose proof (script_cases E ui w) as Hcases. simpl in Hcases.
  pose proof (init_session_state_keeps_memory w) as [Hinit _].
  set (w1 := world_after (init_session_state w)) in *.
  set (w2 := world_after (question_section E (text_input ui) w1)) in *.
  split.
  - intros Hclick Hdocs Hret.
    destruct Hcases as [(e & _ & Hr & _)|(_ & Hr & ->)]; [congruence|].
    rewrite Hr, Hclick in Hret. rewrite Hclick.
    destruct (sidebar_section_process E (file_uploader ui) w2 Hdocs) as [Hr3 ->].
    rewrite Hr3 in Hret.
    destruct (processing_outcome E (file_uploader ui) w2)
      as [(e & He & _)|(vs & _ & Hc & _ & Hh)]; [congruence|].
    by eapply memory_history_fresh_chain.
  - intros Hbefore Hafter.
    assert (H2 : memory_history w2 ≠ []).
    { apply question_section_keeps_turns. by rewrite Hinit. }
    destruct Hcases as [(e & _ & _ & Hw)|(_ & Hr & Hw)]; [congruence|].
    rewrite Hw in Hafter. rewrite Hr.
    destruct (button_Process ui) eqn:Hclick;
      [|by destruct (sidebar_section_idle E (file_uploader ui) false w2) as [_ Hw3];
          [by left | congruence]].
    destruct (decide (file_uploader ui = [])) as [Hdocs|Hdocs];
      [by destruct (sidebar_section_idle E (file_uploader ui) true w2) as [_ Hw3];
          [by right | congruence]|].
    destruct (sidebar_section_process E (file_uploader ui) w2 Hdocs) as [Hr3 Hw3].
    rewrite Hw3 in Hafter. rewrite Hr3.
    destruct (processing_outcome E (file_uploader ui) w2)
      as [(e & _ & Hsame)|(vs & Hok & _)]; [|done].
    by rewrite (same_session_memory_history _ _ Hsame) in Hafter.
Qed.

Lemma process_resets_chat_history_witness :
  (button_Process (click_Process "" [b_pdf]) = true ∧
   file_uploader (click_Process "" [b_pdf]) ≠ [] ∧
   result (script demo_env (click_Process "" [b_pdf]) chatted_world) = Returned tt ∧
   memory_history chatted_world = [HumanMessage "Hi"; AIMessage "Nein."] ∧
   memory_history chatted_world ≠ []) ∧
  memory_history (world_after (script demo_env (click_Process "" [b_pdf]) chatted_world)) = [].
Proof.
  split; [repeat split; done|].
  apply (process_resets_chat_history demo_env (click_Process "" [b_pdf]) chatted_world);
    [reflexivity | done | reflexivity].
Defined.

(** * Question and answer alternate *)

Lemma alternates_nil : alternates [].
Proof. split; [done|]. intros i m H. by rewrite lookup_nil in H. Qed.

Lemma mod2_add2 (n : nat) : (n + 2) mod 2 = n mod 2.
Proof. replace (n + 2) with (n + 1 * 2) by lia. apply Nat.Div0.mod_add. Qed.

Lemma mod2_add1 (n : nat) : n mod 2 = 0 → (n + 1) mod 2 ≠ 0.
Proof. intros H. by rewrite <- Nat.Div0.add_mod_idemp_l, H. Qed.

Lemma alternates_app_turn (msgs : list Message) (q a : string) :
  alternates msgs → alternates (msgs ++ [HumanMessage q; AIMessage a]).
Proof.
  intros [Hlen Hmsgs]. split.
  - rewrite length_app. change (length [HumanMessage q; AIMessage a]) with 2.
    by rewrite mod2_add2.
  - intros i m Hi.
    destruct (decide (i < length msgs)) as [Hlt|Hge].
    + rewrite lookup_app_l in Hi by done. by apply Hmsgs.
    + rewrite lookup_app_r in Hi by lia.
      destruct (i - length msgs) as [|[|n]] eqn:Hd; simpl in Hi.
      * injection Hi as <-. assert (i = length msgs) as -> by lia.
        split; [done | by rewrite Hlen].
      * injection Hi as <-. assert (i = length msgs + 1) as -> by lia.
        split; [|done]. intros Hpar. by apply mod2_add1 in Hlen.
      * by rewrite lookup_nil in Hi.
Qed.

(** A run keeps every list of the heap alternating. *)
Lemma script_keeps_alternation (E : Env) (ui : Widgets) (w : World) :
  heap_alternates (heap w) →
  heap_alternates (heap (world_after (script E ui w))).
Proof.
  intros Halt.
  pose proof (script_cases E ui w) as Hcases. simpl in Hcases.
  pose proof (init_session_state_keeps_memory w) as [_ Hh1].
  set (w1 := world_after (init_session_state w)) in *.
  assert (H2 : heap_alternates (heap (world_after (question_section E (text_input ui) w1)))).
  { destruct (question_section_cases E (text_input ui) w1)
      as [->|(c & msgs & a & _ & _ & Hm & _ & _ & ->)]; [by rewrite Hh1|].
    simpl. intros l msgs' Hl.
    destruct (decide (l = chain_memory c)) as [->|Hne].
    - rewrite list_lookup_insert_eq in Hl by (by eapply lookup_lt_Some).
      injection Hl as <-. apply alternates_app_turn.
      rewrite Hh1 in Hm. by eapply Halt.
    - rewrite list_lookup_insert_ne in Hl by done.
      rewrite Hh1 in Hl. by eapply Halt. }
  set (w2 := world_after (question_section E (text_input ui) w1)) in *.
  destruct Hcases as [(e & _ & _ & ->)|(_ & _ & ->)]; [done|].
  destruct (button_Process ui);
    [|by destruct (sidebar_section_idle E (file_uploader ui) false w2) as [_ ->];
        [by left|]].
  destruct (decide (file_uploader ui = [])) as [Hdocs|Hdocs];
    [by destruct (sidebar_section_idle E (file_uploader ui) true w2) as [_ ->];
        [by right|]|].
  destruct (sidebar_section_process E (file_uploader ui) w2 Hdocs) as [_ ->].
  destruct (processing_outcome E (file_uploader ui) w2)
    as [(e & _ & _ & ->)|(vs & _ & _ & _ & ->)]; [done|].
  intros l msgs Hl. apply lookup_app_Some in Hl as [Hl|[_ Hl]]; [by eapply H2|].
  apply list_lookup_singleton_Some in Hl as [_ <-]. apply alternates_nil.
Qed.

Lemma reachable_heap_alternates (w : World) :
  reachable w → heap_alternates (heap w).
Proof.
  induction 1 as [d|E ui w _ IH].
  - intros l msgs Hl. simpl in Hl. by rewrite lookup_nil in Hl.
  - by apply script_keeps_alternation.
Qed.

(** On an alternating history, choosing the bubble by the parity of the
    index is choosing it by the class of the message. *)
Lemma bubbles_by_role (E : Env) (msgs : list Message) :
  alternates msgs →
  concat ((λ im, bubble E im.1 im.2) <$> imap pair msgs)
    = concat (bubble_by_role E <$> msgs).
Proof.
  intros [_ Hmsgs]. f_equal.
  rewrite fmap_imap, <- (imap_const (bubble_by_role E)).
  apply imap_ext. intros i m Hi. simpl.
  destruct (Hmsgs i m Hi) as [Heven Hodd]. unfold bubble.
  destruct (i mod 2 =? 0)%nat eqn:Hpar.
  - apply Nat.eqb_eq in Hpar. specialize (Heven Hpar). by destruct m.
  - apply Nat.eqb_neq in Hpar. specialize (Hodd Hpar). by destruct m.
Qed.

(** C10.  In every world a session can reach, the list the session's
    [chat_history] variable refers to, and the history its conversation
    owns, alternate strictly, starting with a question: the length is even,
    the message at every even index is a user question and the message at
    every odd index is an assistant answer.  So the rendering loop of
    [handle_userinput], which picks the template by the parity of the index,
    writes the user bubble for exactly the questions and the bot bubble for
    exactly the answers. *)
Theorem reachable_chat_history_alternates (w : World) :
  reachable w →
  alternates (memory_history w) ∧
  ∀ msgs, session_history w = Some msgs →
    alternates msgs ∧
    ∀ E, concat ((λ im, bubble E im.1 im.2) <$> imap pair msgs)
           = concat (bubble_by_role E <$> msgs).
Proof.
  intros Hreach. pose proof (reachable_heap_alternates w Hreach) as Halt.
  split.
  - unfold memory_history.
    destruct (conversation (session_state w)) as [[|c]|]; try apply alternates_nil.
    destruct (heap w !! chain_memory c) as [msgs|] eqn:Hm; [|apply alternates_nil].
    by eapply Halt.
  - intros msgs Hmsgs. unfold session_history in Hmsgs.
    destruct (chat_history (session_state w)) as [[|l]|]; try done.
    assert (alternates msgs) by (by eapply Halt).
    split; [done|]. intros E. by apply bubbles_by_role.
Qed.

Lemma chatted_world_reachable : reachable chatted_world.
Proof.
  apply (reachable_run demo_env (ask "Hi")).
  apply (reachable_run demo_env (click_Process "" [a_pdf])).
  apply (reachable_start None).
Qed.

Lemma reachable_chat_history_alternates_witness :
  reachable chatted_world ∧
  session_history chatted_world = Some [HumanMessage "Hi"; AIMessage "Nein."] ∧
  alternates [HumanMessage "Hi"; AIMessage "Nein."].
Proof.
  split; [apply chatted_world_reachable|]. split; [reflexivity|].
  apply (reachable_chat_history_alternates chatted_world chatted_world_reachable).
  reflexivity.
Defined.

(** What a successful query writes to the page, in a reachable world: the
    whole history, each question in the user template and each answer in
    the bot template. *)
Lemma answered_query_page (E : Env) (q : string) (w : World) (c : Chain)
    (h : PyOpt loc) (msgs : list Message) (answer : string) :
  reachable w →
  conversation (session_state w) = Some (PyObj c) →
  chat_history (session_state w) = Some h →
  heap w !! chain_memory c = Some msgs →
  chain_step E c msgs q = inr answer →
  output (handle_userinput E q w) =
    PrintResponse q (msgs ++ [HumanMessage q; AIMessage answer]) answer
      :: concat (bubble_by_role E <$> (msgs ++ [HumanMessage q; AIMessage answer])).
Proof.
  intros Hreach Hc Hh Hm Hstep.
  rewrite (handle_userinput_run E q w c h msgs Hc Hh Hm), Hstep. unfold output. simpl.
  f_equal. apply bubbles_by_role, alternates_app_turn.
  by eapply (reachable_heap_alternates w Hreach).
Qed.

(** * The sentinel *)

(** The answer to a first question (empty history) does not depend on the
    condense prompt, the only place where the sentinel "I am sorry" is
    written: that prompt is not sent to the model then. *)
Lemma first_answer_ignores_condense_prompt (E : Env) (c c' : Chain) (q : string) :
  chain_llm c = chain_llm c' →
  chain_vectorstore c = chain_vectorstore c' →
  chain_k c = chain_k c' →
  chain_step E c [] q = chain_step E c' [] q.
Proof.
  intros Hllm Hvs Hk. unfold chain_step, condense_question. simpl.
  by rewrite Hllm, Hvs, Hk.
Qed.

(** The answer saved and shown is the model's output as it is. *)
Lemma answer_is_model_output (E : Env) (c : Chain) (msgs : list Message)
    (q answer : string) :
  chain_step E c msgs q = inr answer →
  ∃ new_question docs,
    condense_question E c msgs q = inr new_question ∧
    similarity_search E (chain_vectorstore c) new_question (chain_k c) = inr docs ∧
    llm_generate E (chain_llm c) (stuff_prompt E docs new_question) = inr answer.
Proof.
  unfold chain_step. intros H.
  destruct (condense_question E c msgs q) as [e|nq]; [done|].
  destruct (similarity_search E (chain_vectorstore c) nq (chain_k c))
    as [e|docs] eqn:Hdocs; [done|].
  exists nq, docs. by repeat split.
Qed.

(** * Further properties of the code *)

(** ** [validate_urls] *)

(** The loop, from any point: the accepted URLs are appended in order and
    one warning is written per rejected URL. *)
Lemma validate_urls_from_run (v : string → bool) (urls : list string) :
  ∀ (valid_urls : list string) (w : World),
    validate_urls_from v valid_urls urls w =
      (Returned (valid_urls ++ filter (λ url, v url = true) urls),
       w,
       (λ url, StWarning ("Invalid URL: " +:+ url))
         <$> filter (λ url, v url = false) urls).
Proof.
  induction urls as [|url urls IH]; intros valid_urls w.
  - simpl. by rewrite app_nil_r.
  - simpl. destruct (v url) eqn:Hv.
    + rewrite IH, filter_cons_True, filter_cons_False by (by rewrite ?Hv).
      by rewrite <- app_assoc.
    + rewrite bind_run. simpl. rewrite IH.
      by rewrite filter_cons_False, filter_cons_True by (by rewrite ?Hv).
Qed.

Lemma filter_rejected_of_accepted (v : string → bool) (urls : list string) :
  filter (λ url, v url = false) (filter (λ url, v url = true) urls) = [].
Proof.
  induction urls as [|url urls IH]; [done|].
  destruct (v url) eqn:Hv.
  - rewrite (filter_cons_True (λ url, v url = true)) by done.
    rewrite filter_cons_False by (by rewrite Hv). exact IH.
  - rewrite (filter_cons_False (λ url, v url = true)) by (by rewrite Hv). exact IH.
Qed.

(** X1.  [validate_urls] never raises and leaves the state alone.  It
    returns the URLs the check accepts, in their order in the input and as
    often as they occur there, and writes one warning "Invalid URL: ..." for
    each rejected URL, in order. *)
Theorem validate_urls_filters (v : string → bool) (urls : list string) (w : World) :
  validate_urls v urls w =
    (Returned (filter (λ url, v url = true) urls),
     w,
     (λ url, StWarning ("Invalid URL: " +:+ url))
       <$> filter (λ url, v url = false) urls).
Proof. unfold validate_urls. by rewrite validate_urls_from_run. Qed.

(** X2.  Validating a second time changes nothing: on the list it returned,
    [validate_urls] returns that list and writes no warning. *)
Theorem validate_urls_idempotent (v : string → bool) (urls valid : list string)
    (w : World) :
  result (validate_urls v urls w) = Returned valid →
  validate_urls v valid w = (Returned valid, w, []).
Proof.
  unfold validate_urls. rewrite !validate_urls_from_run. simpl.
  intros [= <-]. f_equal; [f_equal|].
  - f_equal. apply list_filter_filter_l. by intros url.
  - by rewrite filter_rejected_of_accepted.
Qed.

Lemma validate_urls_idempotent_witness :
  result (validate_urls https_only ["https://a.org"; "ftp://b"; "https://c.org"] fresh_world)
    = Returned ["https://a.org"; "https://c.org"] ∧
  validate_urls https_only ["https://a.org"; "https://c.org"] fresh_world
    = (Returned ["https://a.org"; "https://c.org"], fresh_world, []).
Proof.
  split; [reflexivity|].
  apply (validate_urls_idempotent https_only
           ["https://a.org"; "ftp://b"; "https://c.org"]).
  reflexivity.
Defined.

(** ** [get_pdf_text] *)


(** The loop over the uploads, when no write raises. *)
Lemma save_uploads_returned (E : Env) (docs : list UploadedFile) :
  ∀ (w : World),
    result (for_each docs (save_upload E) w) = Returned tt →
    docs ≠ [] →
    for_each docs (save_upload E) w =
      (Returned tt,
       with_uploaded_files w
         (Some (foldl (λ d uf, <[uf_name uf := uf_getvalue uf]> d)
                  (default ∅ (uploaded_files w)) docs)),
       replicate (length docs)
         (StSuccess "File has been uploaded and saved to the session.")).
Proof.
  induction docs as [|uf docs IH]; intros w Hret Hne; [done|].
  rewrite for_each_cons, bind_run, save_upload_run in Hret |- *. simpl in Hret |- *.
  destruct (open_wb E (uf_name uf) (uf_getvalue uf)) as [e|[]]; [done|].
  destruct docs as [|uf' docs]; [by rewrite for_each_nil|].
  specialize (IH (with_uploaded_files w
                    (Some (<[uf_name uf := uf_getvalue uf]>
                             (default ∅ (uploaded_files w)))))).
  destruct (for_each (uf' :: docs) (save_upload E) _) as [[r2 w2] out2].
  unfold result in Hret, IH. simpl in Hret, IH. subst r2.
  specialize (IH eq_refl ltac:(done)). by injection IH as -> ->.
Qed.

(** [get_pdf_text], when it returns on a batch that is not empty. *)
Lemma get_pdf_text_returned (E : Env) (pdf_docs : list UploadedFile)
    (w : World) (docs : list Document) :
  pdf_docs ≠ [] →
  result (get_pdf_text E pdf_docs w) = Returned docs →
  loader_load E (Some (batch_dir pdf_docs)) = inr docs ∧
  world_after (get_pdf_text E pdf_docs w)
    = with_uploaded_files w (Some (batch_dir pdf_docs)) ∧
  output (get_pdf_text E pdf_docs w) = get_pdf_text_page pdf_docs docs.
Proof.
  intros Hne. unfold get_pdf_text.
  rewrite bind_run, delete_old_files_run. cbn -[for_each].
  rewrite bind_run.
  pose proof (save_uploads_returned E pdf_docs
                (with_uploaded_files w ((λ _, ∅) <$> uploaded_files w))) as Hloop.
  destruct (for_each pdf_docs (save_upload E) _) as [[[[]|e] w2] out2];
    [|by unfold result].
  specialize (Hloop eq_refl Hne). injection Hloop as -> ->.
  assert (Hd0 : default ∅ ((λ _ : gmap string (list Byte.byte), ∅) <$> uploaded_files w)
                = (∅ : gmap string (list Byte.byte)))
    by (by destruct (uploaded_files w)).
  run. rewrite !Hd0. fold (batch_dir pdf_docs).
  unfold result, world_after, output.
  destruct (loader_load E (Some (batch_dir pdf_docs))) as [e|docs']; [done|].
  simpl. by intros [= ->].
Qed.



(** X4.  Called with no file, [get_pdf_text] deletes every file of the
    directory all the same (and does not make the directory when it is
    missing), then runs the loader on what is left: it returns the loader's
    documents or raises the loader's exception. *)
Theorem get_pdf_text_of_nothing (E : Env) (w : World) :
  get_pdf_text E [] w =
    let d := (λ _, ∅) <$> uploaded_files w in
    match loader_load E d with
    | inr docs => (Returned docs, with_uploaded_files w d, get_pdf_text_page [] docs)
    | inl e => (Raised e, with_uploaded_files w d, [])
    end.
Proof.
  unfold get_pdf_text.
  rewrite bind_run, delete_old_files_run. cbn -[for_each].
  rewrite bind_run, for_each_nil. run.
  by destruct (loader_load E _).
Qed.

(** ** The stages of Process *)

(** The Process block, when it returns. *)
Lemma processing_returned (E : Env) (pdf_docs : list UploadedFile) (w : World) :
  pdf_docs ≠ [] →
  result (processing E pdf_docs w) = Returned tt →
  ∃ raw chunks,
    loader_load E (Some (batch_dir pdf_docs)) = inr raw ∧
    split_documents E 1000 200 raw = inr chunks ∧
    world_after (processing E pdf_docs w) =
      {| session_state :=
           {| conversation :=
                Some (PyObj (built_chain E
                               {| vs_chunks := chunks;
                                  vs_embeddings := bge_embeddings E |}
                               (length (heap w))));
              chat_history := chat_history (session_state w) |};
         heap := heap w ++ [[]];
         uploaded_files := Some (batch_dir pdf_docs) |}.
Proof.
  intros Hne. unfold processing. rewrite bind_run.
  pose proof (get_pdf_text_returned E pdf_docs w) as Hget.
  destruct (get_pdf_text E pdf_docs w) as [[[raw|e] w1] out1]; [|by unfold result].
  destruct (Hget raw Hne eq_refl) as (Hload & Hw1 & _).
  unfold world_after in Hw1. simpl in Hw1. subst w1.
  unfold get_text_chunks, get_vectorstore, get_conversation_chain. run.
  unfold result, world_after.
  destruct (split_documents E 1000 200 raw) as [e|chunks] eqn:Hsplit; [done|].
  destruct (load_embeddings E _) as [e|[]]; [done|].
  destruct (faiss_from_documents E _ _) as [e|[]]; [done|].
  destruct (from_quantized E _ _) as [e|[]]; [done|].
  destruct (tokenizer_from_pretrained E _) as [e|[]]; [done|].
  destruct (pipeline_init E _) as [e|[]]; [done|].
  intros _. exists raw, chunks. split; [done|]. split; [done | reflexivity].
Qed.



(** ** What every run keeps *)

#[global] Instance inv_rel_preorder (P : World → Prop) : PreOrder (inv_rel P).
Proof.
  split; [intros w H; exact H | intros w1 w2 w3 H1 H2 H; apply H2, H1, H].
Qed.

#[global] Instance heap_extends_preorder : PreOrder heap_extends.
Proof.
  split.
  - intros w l msgs Hl. exists []. by rewrite app_nil_r.
  - intros w1 w2 w3 H1 H2 l msgs Hl.
    destruct (H1 l msgs Hl) as [more1 Hl1].
    destruct (H2 l _ Hl1) as [more2 Hl2].
    exists (more1 ++ more2). by rewrite app_assoc.
Qed.

Lemma init_session_state_initialises (w : World) :
  initialised (world_after (init_session_state w)).
Proof. rewrite init_session_state_run. split; eexists; reflexivity. Qed.

Lemma answered_initialised (w : World) (c : Chain) (msgs : list Message)
    (q a : string) :
  initialised w → initialised (answered w c msgs q a).
Proof. intros [Hc _]. split; [exact Hc | eexists; reflexivity]. Qed.

(** A relation kept by the three things a run does to the world is kept
    by the run: binding the session keys, saving an answered turn, and the
    Process block. *)
Lemma script_rel (R : relation World) `{!PreOrder R} (E : Env) (ui : Widgets)
    (w : World) :
  R w (world_after (init_session_state w)) →
  (∀ w c msgs q a,
     initialised w →
     conversation (session_state w) = Some (PyObj c) →
     heap w !! chain_memory c = Some msgs →
     chain_step E c msgs q = inr a →
     R w (answered w c msgs q a)) →
  (∀ w, initialised w → file_uploader ui ≠ [] →
        R w (world_after (processing E (file_uploader ui) w))) →
  R w (world_after (script E ui w)).
Proof.
  intros Hinit Hask Hprocess.
  pose proof (script_cases E ui w) as Hcases. simpl in Hcases.
  pose proof (init_session_state_initialises w) as Hi1.
  set (w1 := world_after (init_session_state w)) in *.
  assert (H2 : R w1 (world_after (question_section E (text_input ui) w1)) ∧
               initialised (world_after (question_section E (text_input ui) w1))).
  { destruct (question_section_cases E (text_input ui) w1)
      as [->|(c & msgs & a & _ & Hc & Hm & Hstep & _ & ->)]; [done|].
    split; [by apply Hask | by apply answered_initialised]. }
  destruct H2 as [H2 Hi2].
  set (w2 := world_after (question_section E (text_input ui) w1)) in *.
  destruct Hcases as [(e & _ & _ & ->)|(_ & _ & ->)]; [by etrans|].
  etrans; [exact Hinit|]. etrans; [exact H2|].
  destruct (button_Process ui);
    [|by destruct (sidebar_section_idle E (file_uploader ui) false w2) as [_ ->];
        [by left|]].
  destruct (decide (file_uploader ui = [])) as [Hdocs|Hdocs];
    [by destruct (sidebar_section_idle E (file_uploader ui) true w2) as [_ ->];
        [by right|]|].
  destruct (sidebar_section_process E (file_uploader ui) w2 Hdocs) as [_ ->].
  by apply Hprocess.
Qed.

Lemma same_session_well_formed (w w' : World) :
  same_session w w' → well_formed w → well_formed w'.
Proof. intros [Hs Hh]. unfold well_formed. by rewrite Hs, Hh. Qed.

Lemma init_session_state_well_formed (w : World) :
  well_formed w → well_formed (world_after (init_session_state w)).
Proof.
  rewrite init_session_state_run. intros (Hc & Hl & Hb).
  split; [|split]; simpl.
  - intros c Heq. apply Hc. by destruct (conversation (session_state w)) as [[|c']|].
  - intros l Heq. apply Hl. by destruct (chat_history (session_state w)) as [[|l']|].
  - intros _. by eexists.
Qed.

Lemma answered_well_formed (w : World) (c : Chain) (msgs : list Message)
    (q a : string) :
  conversation (session_state w) = Some (PyObj c) →
  heap w !! chain_memory c = Some msgs →
  well_formed w → well_formed (answered w c msgs q a).
Proof.
  intros Hc Hm (Hcw & _ & _).
  assert (Hlt : chain_memory c < length (heap w)) by (by eapply lookup_lt_Some).
  split; [|split]; simpl.
  - intros c' Heq. rewrite length_insert. by apply Hcw.
  - intros l [= <-]. by rewrite length_insert.
  - intros _. by eexists.
Qed.

Lemma processing_well_formed (E : Env) (pdf_docs : list UploadedFile) (w : World) :
  initialised w → well_formed w →
  well_formed (world_after (processing E pdf_docs w)).
Proof.
  intros [_ Hbound] Hwf.
  destruct (processing_outcome E pdf_docs w)
    as [(e & _ & Hsame)|(vs & _ & Hc & Hh & Hheap)];
    [by eapply same_session_well_formed|].
  destruct Hwf as (_ & Hl & _).
  split; [|split]; rewrite ?Hc, ?Hh, ?Hheap, ?length_app; simpl.
  - intros c [= <-]. simpl. lia.
  - intros l Heq. specialize (Hl l Heq). lia.
  - by intros _.
Qed.

(** Every reachable world is well formed. *)
Lemma reachable_well_formed (w : World) : reachable w → well_formed w.
Proof.
  induction 1 as [d|E ui w _ IH].
  - split; [|split]; simpl; [done | done | by intros [c Hc]].
  - revert IH. apply (script_rel (inv_rel well_formed)).
    + intros Hwf. by apply init_session_state_well_formed.
    + intros w' c msgs q a _ Hc Hm _ Hwf. by apply answered_well_formed.
    + intros w' Hi _ Hwf. by apply processing_well_formed.
Qed.

Lemma well_formed_memory (w : World) (c : Chain) :
  well_formed w →
  conversation (session_state w) = Some (PyObj c) →
  heap w !! chain_memory c = Some (memory_history w) ∧
  ∃ h, chat_history (session_state w) = Some h.
Proof.
  intros (Hc & _ & Hb) Heq.
  destruct (lookup_lt_is_Some_2 (heap w) (chain_memory c)) as [msgs Hm];
    [by apply Hc|].
  split; [|apply Hb; by eexists].
  by rewrite (memory_history_lookup w c msgs Heq Hm).
Qed.

(** ** Questions in a session *)

(** X6.  In a session, a question typed while a conversation is installed
    fails exactly when a step of the chain fails (condensing the question,
    retrieving, generating), and then with that very exception, with the
    state unchanged, no turn saved and nothing written to the page.
    Otherwise the run goes on, the turn is saved, and the page shows the
    whole history: each question in the user template, each answer in the
    bot template. *)
Theorem query_outcome (E : Env) (q : string) (w : World) (c : Chain) :
  reachable w →
  conversation (session_state w) = Some (PyObj c) →
  q ≠ "" →
  question_section E q w =
    match chain_step E c (memory_history w) q with
    | inr answer =>
        let history := memory_history w ++ [HumanMessage q; AIMessage answer] in
        (Returned tt,
         answered w c (memory_history w) q answer,
         PrintResponse q history answer :: concat (bubble_by_role E <$> history))
    | inl e => (Raised e, w, [])
    end.
Proof.
  intros Hreach Hc Hq.
  destruct (well_formed_memory w c (reachable_well_formed w Hreach) Hc)
    as [Hm [h Hh]].
  rewrite (question_section_ready E q w c Hq Hc).
  rewrite (handle_userinput_run E q w c h (memory_history w) Hc Hh Hm).
  destruct (chain_step E c (memory_history w) q) as [e|answer]; [done|].
  simpl. do 2 f_equal. apply bubbles_by_role, alternates_app_turn.
  by eapply (reachable_heap_alternates w Hreach).
Qed.

Lemma query_outcome_witness :
  reachable chatted_world ∧
  conversation (session_state chatted_world) = Some (PyObj demo_chain) ∧
  "Ho" ≠ "" ∧
  output (question_section demo_env "Ho" chatted_world)
    = [ PrintResponse "Ho"
          [HumanMessage "Hi"; AIMessage "Nein."; HumanMessage "Ho"; AIMessage "Nein."]
          "Nein.";
        StWrite "<user>Hi</user>"; StWrite "<bot>Nein.</bot>"; PyPrint "Nein.";
        StWrite "<user>Ho</user>"; StWrite "<bot>Nein.</bot>"; PyPrint "Nein." ].
Proof.
  split; [apply chatted_world_reachable|]. split; [reflexivity|]. split; [done|].
  rewrite (query_outcome demo_env "Ho" chatted_world demo_chain
             chatted_world_reachable eq_refl ltac:(done)).
  reflexivity.
Defined.

(** ** The conversation object *)

Lemma built_chain_configured (E : Env) (chunks : list Document) (memory : loc) :
  configured_by_app
    (built_chain E {| vs_chunks := chunks; vs_embeddings := bge_embeddings E |} memory).
Proof. by exists E, chunks. Qed.

Lemma reachable_configured (w : World) :
  reachable w →
  ∀ c, conversation (session_state w) = Some (PyObj c) → configured_by_app c.
Proof.
  induction 1 as [d|E ui w _ IH]; [done|].
  revert IH.
  apply (script_rel (inv_rel (λ w, ∀ c, conversation (session_state w) = Some (PyObj c)
                                       → configured_by_app c))).
  - rewrite init_session_state_run. intros IH c Hc. apply IH. simpl in Hc.
    by destruct (conversation (session_state w)) as [[|c']|].
  - intros w' c' msgs q a _ _ _ _ IH c Hc. by apply IH.
  - intros w' _ Hdocs IH c Hc.
    destruct (processing_outcome E (file_uploader ui) w')
      as [(e & _ & Hs & _)|(vs & Hret & _)].
    + rewrite Hs in Hc. by apply IH.
    + destruct (processing_returned E (file_uploader ui) w' Hdocs Hret)
        as (raw & chunks & _ & _ & Hw).
      rewrite Hw in Hc. injection Hc as <-. apply built_chain_configured.
Qed.

(** X7.  Every conversation object a session ever holds is one that
    [get_conversation_chain] built from a vector store of [get_vectorstore]:
    it retrieves 2 chunks per question from an index over normalised
    bge-small embeddings, generates with temperature 0, and condenses with
    the custom prompt.  No run installs or keeps anything else. *)
Theorem conversation_is_configured_by_app (w : World) (c : Chain) :
  reachable w →
  conversation (session_state w) = Some (PyObj c) →
  configured_by_app c ∧
  chain_k c = 2 ∧
  condense_question_prompt c = prompt ∧
  pl_temperature (chain_llm c) = 0 ∧
  normalize_embeddings (vs_embeddings (chain_vectorstore c)) = true.
Proof.
  intros Hreach Hc.
  pose proof (reachable_configured w Hreach c Hc) as Hcfg.
  split; [done|]. destruct Hcfg as (E & chunks & ->). by repeat split.
Qed.

Lemma conversation_is_configured_by_app_witness :
  reachable chatted_world ∧
  conversation (session_state chatted_world) = Some (PyObj demo_chain) ∧
  chain_k demo_chain = 2.
Proof.
  split; [apply chatted_world_reachable|]. split; [reflexivity|].
  apply (conversation_is_configured_by_app chatted_world demo_chain
           chatted_world_reachable eq_refl).
Defined.

(** ** Runs that raise *)

Lemma save_uploads_return (E : Env) (docs : list UploadedFile) :
  (∀ name data, ∃ r, open_wb E name data = inr r) →
  ∀ w, result (for_each docs (save_upload E) w) = Returned tt.
Proof.
  intros Hopen. induction docs as [|uf docs IH]; intros w; [done|].
  rewrite for_each_cons, bind_run, save_upload_run. simpl.
  destruct (Hopen (uf_name uf) (uf_getvalue uf)) as [[] ->].
  specialize (IH (with_uploaded_files w
                    (Some (<[uf_name uf := uf_getvalue uf]>
                             (default ∅ (uploaded_files w)))))).
  by destruct (for_each docs (save_upload E) _) as [[r2 w2] out2].
Qed.

Lemma processing_returns (E : Env) (pdf_docs : list UploadedFile) (w : World) :
  libraries_return E →
  pdf_docs ≠ [] →
  result (processing E pdf_docs w) = Returned tt.
Proof.
  intros (Hopen & Hload & Hsplit & Hemb & Hfaiss & _ & Hq & Htok & Hpipe & _) Hne.
  destruct (get_pdf_text_dir E pdf_docs w Hne) as (d' & Hd' & _).
  unfold processing. rewrite bind_run.
  assert (Hget : ∃ raw, result (get_pdf_text E pdf_docs w) = Returned raw).
  { unfold get_pdf_text. rewrite bind_run, delete_old_files_run. cbn -[for_each].
    rewrite bind_run.
    pose proof (save_uploads_returned E pdf_docs
                  (with_uploaded_files w ((λ _, ∅) <$> uploaded_files w))) as Hloop.
    pose proof (save_uploads_return E pdf_docs Hopen
                  (with_uploaded_files w ((λ _, ∅) <$> uploaded_files w))) as Hret.
    destruct (for_each pdf_docs (save_upload E) _) as [[r2 w2] out2].
    unfold result in Hret. simpl in Hret. subst r2.
    specialize (Hloop eq_refl Hne). injection Hloop as -> ->.
    run. unfold result.
    destruct (Hload (foldl (λ d uf, <[uf_name uf := uf_getvalue uf]> d)
                       (default ∅ ((λ _, ∅) <$> uploaded_files w)) pdf_docs))
      as [raw ->].
    by exists raw. }
  destruct Hget as [raw Hraw].
  destruct (get_pdf_text E pdf_docs w) as [[r1 w1] out1].
  unfold result in Hraw. simpl in Hraw. subst r1.
  unfold get_text_chunks, get_vectorstore, get_conversation_chain. run.
  unfold result.
  destruct (Hsplit 1000 200 raw) as [chunks ->].
  destruct (Hemb {| emb_model_name := "BAAI/bge-small-en"; emb_device := DEVICE E;
                    normalize_embeddings := true |}) as [[] ->].
  destruct (Hfaiss chunks {| emb_model_name := "BAAI/bge-small-en";
                             emb_device := DEVICE E;
                             normalize_embeddings := true |}) as [[] ->].
  destruct (Hq "TheBloke/Llama-2-13B-chat-GPTQ" (DEVICE E)) as [[] ->].
  destruct (Htok "TheBloke/Llama-2-13B-chat-GPTQ") as [[] ->].
  destruct (Hpipe {| pl_model_name := "TheBloke/Llama-2-13B-chat-GPTQ";
                     pl_task := "text2text-generation";
                     pl_device := DEVICE E;
                     pl_max_new_tokens := 1024;
                     pl_temperature := 0;
                     pl_top_p_hundredths := 95;
                     pl_repetition_penalty_hundredths := 115 |}) as [[] ->].
  reflexivity.
Qed.

Lemma chain_step_returns (E : Env) (c : Chain) (msgs : list Message) (q : string) :
  libraries_return E →
  configured_by_app c →
  ∃ answer, chain_step E c msgs q = inr answer.
Proof.
  intros (_ & _ & _ & _ & _ & Hsearch & _ & _ & _ & Hllm) (E' & chunks & ->).
  unfold chain_step.
  assert (Hcond : ∃ nq, condense_question E
            (built_chain E' {| vs_chunks := chunks; vs_embeddings := bge_embeddings E' |}
               (chain_memory c)) msgs q = inr nq).
  { unfold condense_question.
    destruct (truthy_str (get_chat_history msgs)); [|by eexists].
    simpl condense_question_prompt. rewrite format_prompt. apply Hllm. }
  destruct Hcond as [nq ->].
  destruct (Hsearch {| vs_chunks := chunks; vs_embeddings := bge_embeddings E' |} nq 2)
    as [docs Hdocs].
  simpl chain_vectorstore. simpl chain_k. rewrite Hdocs. apply Hllm.
Qed.

Lemma question_section_returns (E : Env) (q : string) (w : World) :
  libraries_return E →
  well_formed w →
  initialised w →
  (∀ c, conversation (session_state w) = Some (PyObj c) → configured_by_app c) →
  result (question_section E q w) = Returned tt.
Proof.
  intros Hlib Hwf [[conv Hconv] _] Hcfg.
  destruct (decide (q = "")) as [->|Hq]; [done|].
  destruct conv as [|c].
  - unfold question_section. destruct q as [|ch q]; [done|].
    with_strategy opaque [handle_userinput] run. rewrite Hconv. cbn.
    by rewrite Hconv.
  - destruct (well_formed_memory w c Hwf Hconv) as [Hm [h Hh]].
    rewrite (question_section_ready E q w c Hq Hconv).
    rewrite (handle_userinput_run E q w c h (memory_history w) Hconv Hh Hm).
    by destruct (chain_step_returns E c (memory_history w) q Hlib (Hcfg c Hconv))
      as [answer ->].
Qed.

Lemma demo_env_libraries_return : libraries_return demo_env.
Proof. repeat split; intros; by eexists. Qed.

(** X8.  A run of the script in a session raises only if a library call
    raises: when the loader, the splitter, the embedding model, the index,
    the language model and the file writes all return, every run returns,
    whatever the widgets hold and whatever happened in the session before.
    The script's own handling of the session state, of the memory and of
    the directory never fails. *)
Theorem run_raises_only_if_a_library_raises (E : Env) (ui : Widgets) (w : World) :
  libraries_return E →
  reachable w →
  result (script E ui w) = Returned tt.
Proof.
  intros Hlib Hreach.
  pose proof (script_cases E ui w) as Hcases. simpl in Hcases.
  pose proof (init_session_state_well_formed w (reachable_well_formed w Hreach)) as Hwf1.
  pose proof (init_session_state_initialises w) as Hi1.
  assert (Hcfg1 : ∀ c, conversation (session_state (world_after (init_session_state w)))
                       = Some (PyObj c) → configured_by_app c).
  { rewrite init_session_state_run. intros c Hc. simpl in Hc.
    apply (reachable_configured w Hreach).
    by destruct (conversation (session_state w)) as [[|c']|]. }
  set (w1 := world_after (init_session_state w)) in *.
  pose proof (question_section_returns E (text_input ui) w1 Hlib Hwf1 Hi1 Hcfg1) as Hq.
  destruct Hcases as [(e & He & _)|(_ & -> & _)]; [congruence|].
  set (w2 := world_after (question_section E (text_input ui) w1)).
  destruct (button_Process ui);
    [|by destruct (sidebar_section_idle E (file_uploader ui) false w2) as [-> _];
        [by left|]].
  destruct (decide (file_uploader ui = [])) as [Hdocs|Hdocs];
    [by destruct (sidebar_section_idle E (file_uploader ui) true w2) as [-> _];
        [by right|]|].
  destruct (sidebar_section_process E (file_uploader ui) w2 Hdocs) as [-> _].
  by apply processing_returns.
Qed.

Lemma run_raises_only_if_a_library_raises_witness :
  libraries_return demo_env ∧
  reachable chatted_world ∧
  result (script demo_env (click_Process "Ho" [a_pdf; b_pdf]) chatted_world) = Returned tt.
Proof.
  split; [apply demo_env_libraries_return|].
  split; [apply chatted_world_reachable|].
  apply (run_raises_only_if_a_library_raises demo_env (click_Process "Ho" [a_pdf; b_pdf])
           chatted_world demo_env_libraries_return chatted_world_reachable).
Defined.

(** ** What a run changes *)

(** The parts of a run and the worlds between them. *)
Lemma script_worlds (E : Env) (ui : Widgets) (w : World) :
  let w1 := world_after (init_session_state w) in
  let w2 := world_after (question_section E (text_input ui) w1) in
  (w2 = w1 ∨
   ∃ c msgs a,
     text_input ui ≠ "" ∧
     conversation (session_state w1) = Some (PyObj c) ∧
     heap w1 !! chain_memory c = Some msgs ∧
     chain_step E c msgs (text_input ui) = inr a ∧
     w2 = answered w1 c msgs (text_input ui) a) ∧
  (world_after (script E ui w) = w2 ∨
   button_Process ui = true ∧ file_uploader ui ≠ [] ∧
   result (question_section E (text_input ui) w1) = Returned tt ∧
   result (script E ui w) = result (processing E (file_uploader ui) w2) ∧
   world_after (script E ui w) = world_after (processing E (file_uploader ui) w2)).
Proof.
  simpl.
  pose proof (script_cases E ui w) as Hcases. simpl in Hcases.
  set (w1 := world_after (init_session_state w)) in *.
  split.
  - destruct (question_section_cases E (text_input ui) w1)
      as [->|(c & msgs & a & Hq & Hc & Hm & Hstep & _ & ->)]; [by left|].
    right. by exists c, msgs, a.
  - set (w2 := world_after (question_section E (text_input ui) w1)) in *.
    destruct Hcases as [(e & _ & _ & ->)|(Hr2 & Hr & ->)]; [by left|].
    destruct (button_Process ui) eqn:Hclick;
      [|left; by destruct (sidebar_section_idle E (file_uploader ui) false w2) as [_ ->];
          [by left|]].
    destruct (decide (file_uploader ui = [])) as [Hdocs|Hdocs];
      [left; by destruct (sidebar_section_idle E (file_uploader ui) true w2) as [_ ->];
          [by right|]|].
    right. destruct (sidebar_section_process E (file_uploader ui) w2 Hdocs) as [Hr3 ->].
    by rewrite Hr, Hr3.
Qed.

(** X9.  After any run of the script, also one that raised, both keys of
    the session state are bound: a later run never reads an unbound
    [conversation] or [chat_history]. *)
Theorem session_keys_are_bound_after_a_run (E : Env) (ui : Widgets) (w : World) :
  initialised (world_after (script E ui w)).
Proof.
  destruct (script_worlds E ui w) as [H2 H3]. simpl in H2, H3.
  pose proof (init_session_state_initialises w) as Hi1.
  set (w1 := world_after (init_session_state w)) in *.
  set (w2 := world_after (question_section E (text_input ui) w1)) in *.
  assert (Hi2 : initialised w2).
  { destruct H2 as [->|(c & msgs & a & _ & _ & _ & _ & ->)];
      [done | by apply answered_initialised]. }
  destruct H3 as [->|(_ & _ & _ & _ & ->)]; [done|].
  destruct Hi2 as [Hc2 Hh2].
  destruct (processing_outcome E (file_uploader ui) w2)
    as [(e & _ & Hs & _)|(vs & _ & Hc & Hh & _)].
  - split; by rewrite Hs.
  - split; [rewrite Hc; by eexists | by rewrite Hh].
Qed.

(** X10.  Only a click on Process with files uploaded touches the directory
    [uploaded_files]: in every other run, whatever is asked and however the
    run ends, the directory and its files are exactly as before. *)
Theorem only_process_touches_the_directory (E : Env) (ui : Widgets) (w : World) :
  button_Process ui = false ∨ file_uploader ui = [] →
  uploaded_files (world_after (script E ui w)) = uploaded_files w.
Proof.
  intros Hidle.
  destruct (script_worlds E ui w) as [H2 H3]. simpl in H2, H3.
  assert (H1 : uploaded_files (world_after (init_session_state w)) = uploaded_files w)
    by (by rewrite init_session_state_run).
  set (w1 := world_after (init_session_state w)) in *.
  set (w2 := world_after (question_section E (text_input ui) w1)) in *.
  destruct H3 as [->|(Hclick & Hdocs & _)];
    [|destruct Hidle; congruence].
  by destruct H2 as [->|(c & msgs & a & _ & _ & _ & _ & ->)].
Qed.

Lemma only_process_touches_the_directory_witness :
  (button_Process (ask "Ho") = false ∨ file_uploader (ask "Ho") = []) ∧
  uploaded_files (world_after (script demo_env (ask "Ho") chatted_world))
    = uploaded_files chatted_world.
Proof.
  split; [by left|].
  apply (only_process_touches_the_directory demo_env (ask "Ho") chatted_world).
  by left.
Defined.

(** X11.  The conversation object of a session is replaced only by a click
    on Process that completes.  In every other run (no click, no file, a
    Process that raised, a question that raised) the session holds the very
    conversation it held before; in particular a session that has a
    conversation never falls back to having none. *)
Theorem only_a_completed_process_replaces_the_conversation (E : Env) (ui : Widgets)
    (w : World) (conv : PyOpt Chain) :
  conversation (session_state w) = Some conv →
  conversation (session_state (world_after (script E ui w))) = Some conv ∨
  (button_Process ui = true ∧ file_uploader ui ≠ [] ∧
   result (script E ui w) = Returned tt ∧
   ∃ c', conversation (session_state (world_after (script E ui w))) = Some (PyObj c')).
Proof.
  intros Hconv.
  destruct (script_worlds E ui w) as [H2 H3]. simpl in H2, H3.
  assert (H1 : conversation (session_state (world_after (init_session_state w)))
               = Some conv)
    by (by rewrite init_session_state_run; simpl; rewrite Hconv).
  set (w1 := world_after (init_session_state w)) in *.
  set (w2 := world_after (question_section E (text_input ui) w1)) in *.
  assert (Hc2 : conversation (session_state w2) = Some conv)
    by (by destruct H2 as [->|(c & msgs & a & _ & _ & _ & _ & ->)]).
  destruct H3 as [->|(Hclick & Hdocs & _ & Hr & ->)]; [by left|].
  destruct (processing_outcome E (file_uploader ui) w2)
    as [(e & _ & Hs & _)|(vs & Hret & Hc & _)].
  - left. by rewrite Hs.
  - right. rewrite Hr. repeat split; try done. by eexists.
Qed.

Lemma only_a_completed_process_replaces_the_conversation_witness :
  conversation (session_state chatted_world) = Some (PyObj demo_chain) ∧
  (conversation (session_state
                   (world_after (script broken_loader_env (click_Process "Ho" [b_pdf])
                                   chatted_world)))
     = Some (PyObj demo_chain) ∨
   (button_Process (click_Process "Ho" [b_pdf]) = true ∧
    file_uploader (click_Process "Ho" [b_pdf]) ≠ [] ∧
    result (script broken_loader_env (click_Process "Ho" [b_pdf]) chatted_world)
      = Returned tt ∧
    ∃ c', conversation (session_state
                          (world_after (script broken_loader_env
                                          (click_Process "Ho" [b_pdf]) chatted_world)))
            = Some (PyObj c'))).
Proof.
  split; [reflexivity|].
  apply (only_a_completed_process_replaces_the_conversation broken_loader_env
           (click_Process "Ho" [b_pdf]) chatted_world (PyObj demo_chain)).
  reflexivity.
Defined.

(** X12.  No run removes or rewrites a stored message, of the current
    conversation or of one that was replaced: after any run, every list of
    the heap is the list it was, or that list followed by one turn, the
    question in the text box and its answer. *)
Theorem stored_messages_are_never_lost (E : Env) (ui : Widgets) (w : World)
    (l : loc) (msgs : list Message) :
  heap w !! l = Some msgs →
  heap (world_after (script E ui w)) !! l = Some msgs ∨
  ∃ a, heap (world_after (script E ui w)) !! l
         = Some (msgs ++ [HumanMessage (text_input ui); AIMessage a]).
Proof.
  intros Hl.
  destruct (script_worlds E ui w) as [H2 H3]. simpl in H2, H3.
  assert (H1 : heap (world_after (init_session_state w)) = heap w)
    by (by rewrite init_session_state_run).
  set (w1 := world_after (init_session_state w)) in *.
  set (w2 := world_after (question_section E (text_input ui) w1)) in *.
  assert (Hl2 : heap w2 !! l = Some msgs ∨
                ∃ a, heap w2 !! l
                       = Some (msgs ++ [HumanMessage (text_input ui); AIMessage a])).
  { destruct H2 as [->|(c & msgs0 & a & _ & _ & Hm & _ & ->)];
      [left; by rewrite H1|].
    simpl. rewrite H1 in Hm |- *.
    destruct (decide (l = chain_memory c)) as [->|Hne].
    - right. exists a. rewrite list_lookup_insert_eq by (by eapply lookup_lt_Some).
      congruence.
    - left. by rewrite list_lookup_insert_ne. }
  destruct H3 as [->|(_ & _ & _ & _ & ->)]; [done|].
  destruct (processing_outcome E (file_uploader ui) w2)
    as [(e & _ & _ & ->)|(vs & _ & _ & _ & ->)]; [done|].
  destruct Hl2 as [Hl2|[a Hl2]]; [left | right; exists a];
    by apply lookup_app_l_Some.
Qed.

Lemma stored_messages_are_never_lost_witness :
  heap chatted_world !! 0 = Some [HumanMessage "Hi"; AIMessage "Nein."] ∧
  (heap (world_after (script demo_env (click_Process "Ho" [b_pdf]) chatted_world)) !! 0
     = Some [HumanMessage "Hi"; AIMessage "Nein."] ∨
   ∃ a, heap (world_after (script demo_env (click_Process "Ho" [b_pdf]) chatted_world)) !! 0
          = Some ([HumanMessage "Hi"; AIMessage "Nein."]
                  ++ [HumanMessage (text_input (click_Process "Ho" [b_pdf]));
                      AIMessage a])).
Proof.
  split; [reflexivity|].
  apply (stored_messages_are_never_lost demo_env (click_Process "Ho" [b_pdf])
           chatted_world 0 [HumanMessage "Hi"; AIMessage "Nein."]).
  reflexivity.
Defined.

(** A question that was answered: what the question box did. *)
Lemma question_answered (E : Env) (q : string) (w : World) (c : Chain) :
  q ≠ "" →
  conversation (session_state w) = Some (PyObj c) →
  result (question_section E q w) = Returned tt →
  ∃ a,
    chain_step E c (memory_history w) q = inr a ∧
    heap w !! chain_memory c = Some (memory_history w) ∧
    world_after (question_section E q w) = answered w c (memory_history w) q a.
Proof.
  intros Hq Hc. rewrite (question_section_ready E q w c Hq Hc).
  destruct (chat_history (session_state w)) as [h|] eqn:Hh;
    [|destruct (handle_userinput_unbound E q w c Hc Hh) as [_ [e He]]; congruence].
  destruct (heap w !! chain_memory c) as [msgs|] eqn:Hm;
    [|by rewrite (handle_userinput_dangling E q w c h Hc Hh Hm)].
  rewrite (handle_userinput_run E q w c h msgs Hc Hh Hm).
  rewrite (memory_history_lookup w c msgs Hc Hm).
  destruct (chain_step E c msgs q) as [e|a]; [done|].
  intros _. by exists a.
Qed.

Lemma memory_history_answered (w : World) (c : Chain) (msgs : list Message)
    (q a : string) :
  conversation (session_state w) = Some (PyObj c) →
  heap w !! chain_memory c = Some msgs →
  memory_history (answered w c msgs q a) = msgs ++ [HumanMessage q; AIMessage a].
Proof.
  intros Hc Hm. unfold memory_history. simpl. rewrite Hc.
  by rewrite list_lookup_insert_eq by (by eapply lookup_lt_Some).
Qed.

(** A run without Process in which the question was answered. *)
Lemma script_answers (E : Env) (ui : Widgets) (w : World) (c : Chain) :
  conversation (session_state w) = Some (PyObj c) →
  text_input ui ≠ "" →
  button_Process ui = false ∨ file_uploader ui = [] →
  result (script E ui w) = Returned tt →
  ∃ a,
    conversation (session_state (world_after (script E ui w))) = Some (PyObj c) ∧
    memory_history (world_after (script E ui w))
      = memory_history w ++ [HumanMessage (text_input ui); AIMessage a].
Proof.
  intros Hc Hq Hidle Hret.
  pose proof (script_cases E ui w) as Hcases. simpl in Hcases.
  destruct (init_session_state_keeps_memory w) as [Hmem1 _].
  assert (Hc1 : conversation (session_state (world_after (init_session_state w)))
                = Some (PyObj c))
    by (by rewrite init_session_state_run; simpl; rewrite Hc).
  set (w1 := world_after (init_session_state w)) in *.
  destruct Hcases as [(e & _ & He & _)|(Hr2 & _ & Hw)]; [congruence|].
  destruct (sidebar_section_idle E (file_uploader ui) (button_Process ui)
              (world_after (question_section E (text_input ui) w1)) Hidle) as [_ Hw3].
  rewrite Hw, Hw3.
  destruct (question_answered E (text_input ui) w1 c Hq Hc1 Hr2) as (a & _ & Hm & ->).
  exists a. split; [done|].
  by rewrite (memory_history_answered w1 c _ _ a Hc1 Hm), Hmem1.
Qed.

(** X13.  The script asks the question in the text box on every run, not
    once per question: when two runs in a row find the same question in the
    box (any interaction reruns the script) and both are answered, the
    history grows by two turns with that question. *)
Theorem every_run_asks_the_question_again (E : Env) (ui : Widgets) (w : World)
    (c : Chain) :
  conversation (session_state w) = Some (PyObj c) →
  text_input ui ≠ "" →
  button_Process ui = false ∨ file_uploader ui = [] →
  result (script E ui w) = Returned tt →
  result (script E ui (world_after (script E ui w))) = Returned tt →
  ∃ a1 a2,
    memory_history (world_after (script E ui (world_after (script E ui w))))
      = memory_history w
        ++ [ HumanMessage (text_input ui); AIMessage a1;
             HumanMessage (text_input ui); AIMessage a2 ].
Proof.
  intros Hc Hq Hidle Hret1 Hret2.
  destruct (script_answers E ui w c Hc Hq Hidle Hret1) as (a1 & Hc1 & Hm1).
  destruct (script_answers E ui _ c Hc1 Hq Hidle Hret2) as (a2 & _ & Hm2).
  exists a1, a2. by rewrite Hm2, Hm1, <- app_assoc.
Qed.

Lemma every_run_asks_the_question_again_witness :
  conversation (session_state ready_world) = Some (PyObj demo_chain) ∧
  text_input (ask "Hi") ≠ "" ∧
  result (script demo_env (ask "Hi") ready_world) = Returned tt ∧
  result (script demo_env (ask "Hi") (world_after (script demo_env (ask "Hi") ready_world)))
    = Returned tt ∧
  ∃ a1 a2,
    memory_history
      (world_after (script demo_env (ask "Hi")
                      (world_after (script demo_env (ask "Hi") ready_world))))
      = memory_history ready_world
        ++ [ HumanMessage (text_input (ask "Hi")); AIMessage a1;
             HumanMessage (text_input (ask "Hi")); AIMessage a2 ].
Proof.
  split; [reflexivity|]. split; [done|]. split; [reflexivity|]. split; [reflexivity|].
  apply (every_run_asks_the_question_again demo_env (ask "Hi") ready_world demo_chain);
    [reflexivity | done | by left | reflexivity | reflexivity].
Defined.

(** X14.  When Process is clicked while the text box still holds a
    question, the question is answered first, by the conversation that is
    about to be replaced: its turn goes to the old memory, which the
    [chat_history] variable keeps referring to, and the new conversation
    starts with an empty history. *)
Theorem process_answers_the_box_first (E : Env) (ui : Widgets) (w : World)
    (c : Chain) :
  conversation (session_state w) = Some (PyObj c) →
  text_input ui ≠ "" →
  button_Process ui = true →
  file_uploader ui ≠ [] →
  result (script E ui w) = Returned tt →
  let w' := world_after (script E ui w) in
  ∃ a,
    chain_step E c (memory_history w) (text_input ui) = inr a ∧
    heap w' !! chain_memory c
      = Some (memory_history w ++ [HumanMessage (text_input ui); AIMessage a]) ∧
    session_history w'
      = Some (memory_history w ++ [HumanMessage (text_input ui); AIMessage a]) ∧
    memory_history w' = [].
Proof.
  intros Hc Hq Hclick Hdocs Hret. simpl.
  pose proof (script_cases E ui w) as Hcases. simpl in Hcases.
  destruct (init_session_state_keeps_memory w) as [Hmem1 _].
  assert (Hc1 : conversation (session_state (world_after (init_session_state w)))
                = Some (PyObj c))
    by (by rewrite init_session_state_run; simpl; rewrite Hc).
  set (w1 := world_after (init_session_state w)) in *.
  destruct Hcases as [(e & _ & He & _)|(Hr2 & Hr & Hw)]; [congruence|].
  rewrite Hclick in Hr, Hw.
  destruct (sidebar_section_process E (file_uploader ui)
              (world_after (question_section E (text_input ui) w1)) Hdocs)
    as [Hr3 Hw3].
  rewrite Hw, Hw3. rewrite Hr, Hr3 in Hret.
  destruct (question_answered E (text_input ui) w1 c Hq Hc1 Hr2) as (a & Hstep & Hm & Hw2).
  rewrite Hw2 in Hret |- *.
  destruct (processing_returned E (file_uploader ui) _ Hdocs Hret)
    as (raw & chunks & _ & _ & ->).
  assert (Hlt : chain_memory c < length (heap w1)) by (by eapply lookup_lt_Some).
  exists a. rewrite <- Hmem1. split; [done|].
  unfold session_history, memory_history. simpl.
  rewrite lookup_app_l by (by rewrite length_insert).
  rewrite list_lookup_insert_eq by done.
  by rewrite list_lookup_middle by (by rewrite length_insert).
Qed.

Lemma process_answers_the_box_first_witness :
  conversation (session_state chatted_world) = Some (PyObj demo_chain) ∧
  result (script demo_env (click_Process "Ho" [b_pdf]) chatted_world) = Returned tt ∧
  ∃ a,
    chain_step demo_env demo_chain (memory_history chatted_world)
      (text_input (click_Process "Ho" [b_pdf])) = inr a ∧
    heap (world_after (script demo_env (click_Process "Ho" [b_pdf]) chatted_world))
      !! chain_memory demo_chain
      = Some (memory_history chatted_world
              ++ [HumanMessage (text_input (click_Process "Ho" [b_pdf])); AIMessage a]) ∧
    session_history (world_after (script demo_env (click_Process "Ho" [b_pdf]) chatted_world))
      = Some (memory_history chatted_world
              ++ [HumanMessage (text_input (click_Process "Ho" [b_pdf])); AIMessage a]) ∧
    memory_history (world_after (script demo_env (click_Process "Ho" [b_pdf]) chatted_world))
      = [].
Proof.
  split; [reflexivity|]. split; [reflexivity|].
  apply (process_answers_the_box_first demo_env (click_Process "Ho" [b_pdf])
           chatted_world demo_chain);
    [reflexivity | done | reflexivity | done | reflexivity].
Defined.

(** ** The bubbles of the page *)

Lemma replace_from_cons (old new : string) (c : Ascii.ascii) (s : string) :
  replace_from old new (String c s) 0 =
    if String.prefix old (String c s)
    then new +:+ replace_from old new s (String.length old - 1)
    else String c (replace_from old new s 0).
Proof. reflexivity. Qed.

Lemma replace_from_brace_free (new pre rest : string) :
  brace_free pre = true →
  replace_from "{{MSG}}" new (pre +:+ rest) 0
    = pre +:+ replace_from "{{MSG}}" new rest 0.
Proof.
  induction pre as [|ch pre IH]; [done|].
  simpl brace_free. intros [Hch Hpre]%andb_prop.
  change (String ch pre +:+ rest) with (String ch (pre +:+ rest)).
  rewrite replace_from_cons. cbn [String.prefix].
  destruct (Ascii.ascii_dec _ ch) as [<-|Hne]; [by vm_compute in Hch|].
  by rewrite IH.
Qed.

Lemma replace_from_end (new post : string) :
  brace_free post = true →
  replace_from "{{MSG}}" new post 0 = post.
Proof.
  induction post as [|ch post IH]; [done|].
  simpl brace_free. intros [Hch Hpost]%andb_prop.
  rewrite replace_from_cons. cbn [String.prefix].
  destruct (Ascii.ascii_dec _ ch) as [<-|Hne]; [by vm_compute in Hch|].
  by rewrite IH.
Qed.

Lemma replace_from_placeholder (new post : string) :
  replace_from "{{MSG}}" new ("{{MSG}}" +:+ post) 0
    = new +:+ replace_from "{{MSG}}" new post 0.
Proof. by destruct post. Qed.

(** X15.  The text of a message goes into the page as it is: for a
    template with one placeholder [{{MSG}}] (and no other brace), the bubble
    is the template's text before the placeholder, the message, and the text
    after it.  The message is neither escaped nor searched for placeholders
    of its own. *)
Theorem message_is_inserted_verbatim (E : Env) (i : nat) (m : Message)
    (upre upost bpre bpost : string) :
  user_template E = upre +:+ "{{MSG}}" +:+ upost →
  bot_template E = bpre +:+ "{{MSG}}" +:+ bpost →
  brace_free upre = true → brace_free upost = true →
  brace_free bpre = true → brace_free bpost = true →
  bubble E i m =
    if (i mod 2 =? 0)%nat
    then [ StWrite (upre +:+ content m +:+ upost) ]
    else [ StWrite (bpre +:+ content m +:+ bpost); PyPrint (content m) ].
Proof.
  intros Hu Hb Hupre Hupost Hbpre Hbpost. unfold bubble, str_replace.
  rewrite Hu, Hb.
  rewrite (replace_from_brace_free _ upre), (replace_from_brace_free _ bpre)
    by done.
  rewrite !replace_from_placeholder.
  rewrite (replace_from_end _ upost), (replace_from_end _ bpost) by done.
  reflexivity.
Qed.

Lemma message_is_inserted_verbatim_witness :
  bubble demo_env 1 (AIMessage "<b>{{MSG}}</b>")
    = [ StWrite ("<bot>" +:+ "<b>{{MSG}}</b>" +:+ "</bot>");
        PyPrint "<b>{{MSG}}</b>" ].
Proof.
  apply (message_is_inserted_verbatim demo_env 1 (AIMessage "<b>{{MSG}}</b>")
           "<user>" "</user>" "<bot>" "</bot>");
    reflexivity.
Defined.
